(** * muttlib.gcd: TimeRangeConfiguration and AttributeHelperMixin

    A shallow embedding of [muttlib/gcd.py].  Python objects are modelled by
    their instance dictionary (attribute name to value), methods by functions
    that thread the instance and may raise, and the class-level granularity
    table by an association list in source order. *)

From Stdlib Require Import ZArith List Lia.
From stdpp Require Import base option gmap strings list fin_maps.

Local Open Scope string_scope.
Local Open Scope Z_scope.

(** ** Python run-time values *)

(** [datetime.datetime] (naive): the seven components that [replace] can
    set and that comparison looks at. *)
Record datetime : Type := mk_datetime {
  year : Z;
  month : Z;
  day : Z;
  hour : Z;
  minute : Z;
  second : Z;
  microsecond : Z
}.

#[global] Instance datetime_eq_dec : EqDecision datetime.
Proof. solve_decision. Defined.

(** The values an instance attribute of these two classes can hold. *)
Inductive pyval : Type :=
  | VDate (d : datetime)
  | VInt (n : Z)
  | VStr (s : string)
  | VList (l : list string)
  | VDict (m : gmap string Z).

#[global] Instance pyval_eq_dec : EqDecision pyval.
Proof. solve_decision. Defined.

(** An f-string: literal pieces and interpolated values, in order. *)
Inductive frag : Type :=
  | Lit (s : string)
  | Interp (v : pyval).

Inductive exn : Type :=
  | ValueError (msg : list frag)
  | KeyError (key : string)
  | AttributeError (name : string)
  | TypeError (what : string).

Inductive result (A : Type) : Type :=
  | Ok (a : A)
  | Raise (e : exn).
Arguments Ok {A} a.
Arguments Raise {A} e.

#[global] Instance result_ret : MRet result := fun _ a => Ok a.
#[global] Instance result_bind : MBind result := fun _ _ f r =>
  match r with
  | Ok a => f a
  | Raise e => Raise e
  end.

(** The instance dictionary of an object. *)
Abbreviation pyobj := (gmap string pyval).

(** A method body: runs on [self], may mutate it, may raise. *)
Definition method (A : Type) : Type := pyobj -> result (A * pyobj).

#[global] Instance method_ret : MRet method := fun _ a self => Ok (a, self).
#[global] Instance method_bind : MBind method := fun _ _ f c self =>
  match c self with
  | Ok (a, self') => f a self'
  | Raise e => Raise e
  end.

Definition raise {A : Type} (e : exn) : method A := fun _ => Raise e.

Definition lift {A : Type} (r : result A) : method A := fun self =>
  match r with
  | Ok a => Ok (a, self)
  | Raise e => Raise e
  end.

(** [hasattr(self, name)] for a name that no class defines, where the
    instance dictionary decides; the module calls it with [_artifacts] and
    [_metrics] only. *)
Definition hasattr (self : pyobj) (name : string) : bool :=
  bool_decide (is_Some (self !! name)).

(** [setattr(self, name, val)] and [self.name = val]. *)
Definition setattr (name : string) (val : pyval) : method unit :=
  fun self => Ok (tt, <[name := val]> self).

(** [self.name]. *)
Definition getattr (name : string) : method pyval := fun self =>
  match self !! name with
  | Some v => Ok (v, self)
  | None => Raise (AttributeError name)
  end.

(** ** datetime operations used by the module *)

(** Sequence comparison, as Python compares the component tuples. *)
Fixpoint lex_compare (a b : list Z) : comparison :=
  match a, b with
  | [], [] => Eq
  | [], _ :: _ => Lt
  | _ :: _, [] => Gt
  | x :: a', y :: b' =>
      match x ?= y with
      | Eq => lex_compare a' b'
      | c => c
      end
  end.

Definition dt_fields (d : datetime) : list Z :=
  [year d; month d; day d; hour d; minute d; second d; microsecond d].

(** [a <= b] on datetimes. *)
Definition dt_le (a b : datetime) : bool :=
  match lex_compare (dt_fields a) (dt_fields b) with
  | Gt => false
  | _ => true
  end.

Definition with_hour (d : datetime) (h : Z) : datetime :=
  {| year := year d; month := month d; day := day d; hour := h;
     minute := minute d; second := second d; microsecond := microsecond d |}.

(** [d.replace(hour=h)]: the library checks the range of the new hour. *)
Definition replace_hour (d : datetime) (h : Z) : result datetime :=
  if (0 <=? h) && (h <=? 23) then Ok (with_hour d h)
  else Raise (ValueError [Lit "hour must be in 0..23"]).

(** Operand of [<=] in [_validate_construction]. *)
Definition as_date (v : pyval) : result datetime :=
  match v with
  | VDate d => Ok d
  | _ => Raise (TypeError "<=")
  end.

(** ** AttributeHelperMixin *)

Definition _get_init (name : string) (val : pyval) : method pyval :=
  fun self =>
    ((if negb (hasattr self name) then setattr name val else mret tt);;
     mret val) self.

Definition _get_init_dict (name : string) : method pyval :=
  _get_init name (VDict ∅).

Definition _get_init_list (name : string) : method pyval :=
  _get_init name (VList []).

(** [self.<name>.append(path)]: the list held by the attribute is extended
    in place.  Of the values modelled only a list has [append]. *)
Definition attr_append (name : string) (path : string) : method unit :=
  fun self =>
    match self !! name with
    | Some (VList l) => Ok (tt, <[name := VList (l ++ [path])]> self)
    | Some _ => Raise (AttributeError "append")
    | None => Raise (AttributeError name)
    end.

(** [self.<name>.update(d)]: every entry of [d] is written into the dict
    held by the attribute; the entries of [d] win.  Of the values modelled
    only a dict has [update]. *)
Definition attr_update (name : string) (d : gmap string Z) : method unit :=
  fun self =>
    match self !! name with
    | Some (VDict m) => Ok (tt, <[name := VDict (d ∪ m)]> self)
    | Some _ => Raise (AttributeError "update")
    | None => Raise (AttributeError name)
    end.

Definition log_artifact (path : string) : method unit :=
  _ ← _get_init_list "_artifacts";
  attr_append "_artifacts" path.

Definition get_artifacts : method pyval :=
  _ ← _get_init_list "_artifacts";
  getattr "_artifacts".

Definition log_metrics (d : gmap string Z) : method unit :=
  _ ← _get_init_dict "_metrics";
  attr_update "_metrics" d.

Definition log_metric (k : string) (v : Z) : method unit :=
  log_metrics {[k := v]}.

Definition get_metrics : method pyval :=
  _ ← _get_init_dict "_metrics";
  getattr "_metrics".

(** ** TimeRangeConfiguration *)

Definition HOURLY_TIME_GRANULARITY : string := "H".
Definition DAILY_TIME_GRANULARITY : string := "D".
Definition WEEKLY_TIME_GRANULARITY : string := "W".
Definition MONTHLY_TIME_GRANULARITY : string := "M".

(** The class-level dict, in insertion order. *)
Definition TIME_GRANULARITY_NAME_MAP : list (string * string) :=
  [ (HOURLY_TIME_GRANULARITY, "hourly");
    (DAILY_TIME_GRANULARITY, "daily");
    (WEEKLY_TIME_GRANULARITY, "weekly");
    (MONTHLY_TIME_GRANULARITY, "monthly") ].

(** [list(TIME_GRANULARITY_NAME_MAP.keys())]. *)
Definition TIME_GRANULARITIES : list string :=
  fst <$> TIME_GRANULARITY_NAME_MAP.

(** [d[k]] on a dict: [KeyError] when the key is missing. *)
Fixpoint dict_getitem (d : list (string * string)) (k : string) : result string :=
  match d with
  | [] => Raise (KeyError k)
  | (k', v) :: d' => if bool_decide (k' = k) then Ok v else dict_getitem d' k
  end.

(** [v in l] for a list of strings. *)
Definition py_in (v : pyval) (l : list string) : bool :=
  existsb (fun s => bool_decide (v = VStr s)) l.

(** [a <= b] on attribute values. *)
Definition py_le (a b : pyval) : result bool :=
  da ← as_date a;
  db ← as_date b;
  mret (dt_le da db).

Definition _validate_construction : method unit :=
  sd ← getattr "_start_date";
  ed ← getattr "_end_date";
  ok ← lift (py_le sd ed);
  (if negb ok then
     raise (ValueError [Lit "Bad dates passed. Start:"; Interp sd;
                        Lit ", end:"; Interp ed; Lit "."])
   else mret tt);;
  ed ← getattr "_end_date";
  fd ← getattr "_future_date";
  ok ← lift (py_le ed fd);
  (if negb ok then
     raise (ValueError [Lit "Bad dates passed. End:"; Interp ed;
                        Lit ", future:"; Interp fd; Lit "."])
   else mret tt);;
  g ← getattr "_time_granularity";
  (if negb (py_in g TIME_GRANULARITIES) then
     raise (ValueError [Lit "Bad time granularity passed:"; Interp g; Lit ", ";
                        Lit "Possible values are: ";
                        Interp (VList TIME_GRANULARITIES);
                        Lit (String (Ascii.ascii_of_nat 10) EmptyString)])
   else mret tt).

Section TimeRangeConfiguration.

(** [muttlib.utils.create_forecaster_dates], imported by the module: the
    function that derives (start, end, future) from the anchor date and
    the two window lengths. *)
Variable create_forecaster_dates :
  datetime -> Z -> Z -> datetime * datetime * datetime.

Definition __init__ (end_date : datetime)
    (forecast_train_window forecast_future_window : Z)
    (time_granularity : string) (end_hour : Z) : method unit :=
  let '(sd, ed, fd) :=
    create_forecaster_dates end_date forecast_train_window
      forecast_future_window in
  ed' ← lift (replace_hour ed end_hour);
  setattr "_start_date" (VDate sd);;
  setattr "_end_date" (VDate ed');;
  setattr "_future_date" (VDate fd);;
  setattr "_forecast_train_window" (VInt forecast_train_window);;
  setattr "_forecast_future_window" (VInt forecast_future_window);;
  setattr "_time_granularity" (VStr time_granularity);;
  name ← lift (dict_getitem TIME_GRANULARITY_NAME_MAP time_granularity);
  setattr "_time_granularity_name" (VStr name);;
  _validate_construction.

(** The call [TimeRangeConfiguration(...)]: a new instance with an empty
    dictionary is handed to [__init__]; the caller receives it only when
    [__init__] returns. *)
Definition TimeRangeConfiguration (end_date : datetime)
    (forecast_train_window forecast_future_window : Z)
    (time_granularity : string) (end_hour : Z) : result pyobj :=
  '(_, self) ← __init__ end_date forecast_train_window
                 forecast_future_window time_granularity end_hour ∅;
  mret self.

End TimeRangeConfiguration.

(** A property that returns [self.<name>]. *)
Definition property (name : string) (self : pyobj) : result pyval :=
  match self !! name with
  | Some v => Ok v
  | None => Raise (AttributeError name)
  end.

Definition forecast_future_window : pyobj -> result pyval :=
  property "_forecast_future_window".
Definition forecast_train_window : pyobj -> result pyval :=
  property "_forecast_train_window".
Definition start_date : pyobj -> result pyval := property "_start_date".
Definition end_date : pyobj -> result pyval := property "_end_date".
Definition future_date : pyobj -> result pyval := property "_future_date".
Definition time_granularity : pyobj -> result pyval :=
  property "_time_granularity".
Definition time_granularity_name : pyobj -> result pyval :=
  property "_time_granularity_name".

Definition is_hourly (self : pyobj) : result bool :=
  g ← time_granularity self;
  mret (bool_decide (g = VStr HOURLY_TIME_GRANULARITY)).

Definition is_daily (self : pyobj) : result bool :=
  g ← time_granularity self;
  mret (bool_decide (g = VStr DAILY_TIME_GRANULARITY)).

Definition is_weekly (self : pyobj) : result bool :=
  g ← time_granularity self;
  mret (bool_decide (g = VStr WEEKLY_TIME_GRANULARITY)).

Definition is_monthly (self : pyobj) : result bool :=
  g ← time_granularity self;
  mret (bool_decide (g = VStr MONTHLY_TIME_GRANULARITY)).

(** ** The date deriver *)

(** What the spec asks of the deriver: for non-negative windows the triple
    is ordered. *)
Definition deriver_contract
    (derive : datetime -> Z -> Z -> datetime * datetime * datetime) : Prop :=
  forall end_date tw fw, 0 <= tw -> 0 <= fw ->
    let '(sd, ed, fd) := derive end_date tw fw in
    dt_le sd ed = true /\ dt_le ed fd = true.

Definition is_leap (y : Z) : bool :=
  (y mod 4 =? 0) && (negb (y mod 100 =? 0) || (y mod 400 =? 0)).

Definition days_in_month (y m : Z) : Z :=
  if m =? 2 then (if is_leap y then 29 else 28)
  else if (m =? 4) || (m =? 6) || (m =? 9) || (m =? 11) then 30
  else 31.

Definition with_date (d : datetime) (y m dd : Z) : datetime :=
  {| year := y; month := m; day := dd; hour := hour d;
     minute := minute d; second := second d; microsecond := microsecond d |}.

Definition next_day (d : datetime) : datetime :=
  if day d <? days_in_month (year d) (month d)
  then with_date d (year d) (month d) (day d + 1)
  else if month d <? 12 then with_date d (year d) (month d + 1) 1
  else with_date d (year d + 1) 1 1.

Definition prev_day (d : datetime) : datetime :=
  if 1 <? day d then with_date d (year d) (month d) (day d - 1)
  else if 1 <? month d
  then with_date d (year d) (month d - 1) (days_in_month (year d) (month d - 1))
  else with_date d (year d - 1) 12 31.

(** [d + timedelta(days=n)]. *)
Definition shift_days (n : Z) (d : datetime) : datetime :=
  if 0 <=? n then Nat.iter (Z.to_nat n) next_day d
  else Nat.iter (Z.to_nat (- n)) prev_day d.

(** Modelled from the spec: [muttlib.utils.create_forecaster_dates] is not
    among the sources.  The spec describes it as the function taking the
    anchor date, the number of days before it where training starts and
    the number of days after it where the forecast ends, to the triple
    (start, end, future); zero windows give start = end = future.  It is
    used only to instantiate the deriver at concrete inputs. *)
Definition spec_create_forecaster_dates (end_date : datetime) (tw fw : Z)
    : datetime * datetime * datetime :=
  (shift_days (- tw) end_date, end_date, shift_days fw end_date).

Definition midnight (y m d : Z) : datetime := mk_datetime y m d 0 0 0 0.

(** ** Views of the attribute bag *)

(** The mixin's two attributes, when present, hold a list and a dict: every
    state reached through the mixin's methods is of this shape. *)
Definition bag_wf (self : pyobj) : bool :=
  match self !! "_artifacts" with
  | None | Some (VList _) => true
  | Some _ => false
  end &&
  match self !! "_metrics" with
  | None | Some (VDict _) => true
  | Some _ => false
  end.

Definition artifacts_of (self : pyobj) : list string :=
  match self !! "_artifacts" with
  | Some (VList l) => l
  | _ => []
  end.

Definition metrics_of (self : pyobj) : gmap string Z :=
  match self !! "_metrics" with
  | Some (VDict m) => m
  | _ => ∅
  end.

(** The calls a client can make on the mixin. *)
Inductive mixin_call : Type :=
  | LogMetric (k : string) (v : Z)
  | LogMetrics (d : gmap string Z)
  | LogArtifact (path : string)
  | GetMetrics
  | GetArtifacts.

Definition run_call (c : mixin_call) : method unit :=
  match c with
  | LogMetric k v => log_metric k v
  | LogMetrics d => log_metrics d
  | LogArtifact path => log_artifact path
  | GetMetrics => get_metrics;; mret tt
  | GetArtifacts => get_artifacts;; mret tt
  end.

Fixpoint run_calls (cs : list mixin_call) : method unit :=
  match cs with
  | [] => mret tt
  | c :: cs' => run_call c;; run_calls cs'
  end.

Fixpoint log_artifact_all (paths : list string) : method unit :=
  match paths with
  | [] => mret tt
  | p :: ps => log_artifact p;; log_artifact_all ps
  end.

(** How many of the given answers are [True]. *)
Definition true_count (bs : list bool) : nat :=
  length (filter (fun b => b = true) bs).

(** The instance dictionary [__init__] builds. *)
Definition trc_dict (sd ed fd : datetime) (tw fw : Z) (g name : string) : pyobj :=
  <["_time_granularity_name" := VStr name]>
    (<["_time_granularity" := VStr g]>
      (<["_forecast_future_window" := VInt fw]>
        (<["_forecast_train_window" := VInt tw]>
          (<["_future_date" := VDate fd]>
            (<["_end_date" := VDate ed]>
              (<["_start_date" := VDate sd]> ∅)))))).

(** The read-only calls among them. *)
Definition is_getter (c : mixin_call) : bool :=
  match c with
  | GetMetrics | GetArtifacts => true
  | _ => false
  end.

(** What the seven date-window properties return, in one list. *)
Definition date_window_fields (self : pyobj) : list (result pyval) :=
  [ start_date self; end_date self; future_date self;
    forecast_train_window self; forecast_future_window self;
    time_granularity self; time_granularity_name self ].

(** The anchor of the module docstring's example, and the same day at
    10:30:15.000500. *)
Definition july_1st_2019 : datetime := midnight 2019 7 1.
Definition july_1st_2019_morning : datetime := mk_datetime 2019 7 1 10 30 15 500.

(** A bag that has already been logged to. *)
Definition logged_bag : pyobj :=
  <["_metrics" := VDict {["b" := 7]}]> (<["_artifacts" := VList ["old"]]> ∅).

(** The paths a sequence of calls logs, in call order. *)
Fixpoint logged_paths (cs : list mixin_call) : list string :=
  match cs with
  | [] => []
  | LogArtifact path :: cs' => path :: logged_paths cs'
  | _ :: cs' => logged_paths cs'
  end.

(** The metrics a sequence of calls leaves when it starts from [m]. *)
Fixpoint logged_metrics (cs : list mixin_call) (m : gmap string Z)
    : gmap string Z :=
  match cs with
  | [] => m
  | LogMetric k v :: cs' => logged_metrics cs' (<[k := v]> m)
  | LogMetrics d :: cs' => logged_metrics cs' (d ∪ m)
  | _ :: cs' => logged_metrics cs' m
  end.

(** The modelled values without an [append] method: a datetime, an int, a
    str and a dict. *)
Definition lacks_append (v : pyval) : bool :=
  match v with
  | VDate _ | VInt _ | VStr _ | VDict _ => true
  | VList _ => false
  end.

(** The modelled values without an [update] method: a datetime, an int, a
    str and a list. *)
Definition lacks_update (v : pyval) : bool :=
  match v with
  | VDate _ | VInt _ | VStr _ | VList _ => true
  | VDict _ => false
  end.

(** An object on which the bag's two names are already bound to values of
    another kind. *)
Definition clashing_object : pyobj :=
  <["_metrics" := VList ["m"]]> (<["_artifacts" := VStr "a"]> ∅).

(** * Properties *)

(** ** AttributeHelperMixin *)

Lemma _get_init_absent (name : string) (val : pyval) (self : pyobj) :
  self !! name = None ->
  _get_init name val self = Ok (val, <[name := val]> self).
Proof.
  intros H. unfold _get_init, hasattr. rewrite H.
  rewrite bool_decide_eq_false_2; [reflexivity | by intros [? ?]].
Qed.

Lemma _get_init_present (name : string) (val v : pyval) (self : pyobj) :
  self !! name = Some v ->
  _get_init name val self = Ok (val, self).
Proof.
  intros H. unfold _get_init, hasattr. rewrite H.
  rewrite bool_decide_eq_true_2; [reflexivity | by eexists].
Qed.

Lemma bag_wf_empty : bag_wf ∅ = true.
Proof. reflexivity. Qed.

Lemma bag_wf_metrics (self : pyobj) :
  bag_wf self = true ->
  self !! "_metrics" = None \/ self !! "_metrics" = Some (VDict (metrics_of self)).
Proof.
  unfold bag_wf, metrics_of. intros H. apply andb_true_iff in H as [_ H].
  destruct (self !! "_metrics") as [[]|]; try discriminate; auto.
Qed.

Lemma bag_wf_artifacts (self : pyobj) :
  bag_wf self = true ->
  self !! "_artifacts" = None \/
  self !! "_artifacts" = Some (VList (artifacts_of self)).
Proof.
  unfold bag_wf, artifacts_of. intros H. apply andb_true_iff in H as [H _].
  destruct (self !! "_artifacts") as [[]|]; try discriminate; auto.
Qed.

Lemma get_metrics_spec (self : pyobj) :
  bag_wf self = true ->
  get_metrics self =
    Ok (VDict (metrics_of self), <["_metrics" := VDict (metrics_of self)]> self).
Proof.
  intros Hwf. unfold get_metrics, _get_init_dict.
  destruct (bag_wf_metrics self Hwf) as [H | H].
  - unfold mbind, method_bind. rewrite (_get_init_absent _ _ _ H).
    unfold getattr. rewrite lookup_insert_eq.
    unfold metrics_of. by rewrite H.
  - unfold mbind, method_bind. rewrite (_get_init_present _ _ _ _ H).
    unfold getattr. rewrite H. by rewrite insert_id.
Qed.

Lemma get_artifacts_spec (self : pyobj) :
  bag_wf self = true ->
  get_artifacts self =
    Ok (VList (artifacts_of self),
        <["_artifacts" := VList (artifacts_of self)]> self).
Proof.
  intros Hwf. unfold get_artifacts, _get_init_list.
  destruct (bag_wf_artifacts self Hwf) as [H | H].
  - unfold mbind, method_bind. rewrite (_get_init_absent _ _ _ H).
    unfold getattr. rewrite lookup_insert_eq.
    unfold artifacts_of. by rewrite H.
  - unfold mbind, method_bind. rewrite (_get_init_present _ _ _ _ H).
    unfold getattr. rewrite H. by rewrite insert_id.
Qed.

Lemma log_metrics_spec (d : gmap string Z) (self : pyobj) :
  bag_wf self = true ->
  log_metrics d self =
    Ok (tt, <["_metrics" := VDict (d ∪ metrics_of self)]> self).
Proof.
  intros Hwf. unfold log_metrics, _get_init_dict.
  destruct (bag_wf_metrics self Hwf) as [H | H].
  - unfold mbind, method_bind. rewrite (_get_init_absent _ _ _ H).
    unfold attr_update. rewrite lookup_insert_eq, insert_insert_eq.
    unfold metrics_of. by rewrite H.
  - unfold mbind, method_bind. rewrite (_get_init_present _ _ _ _ H).
    unfold attr_update. by rewrite H.
Qed.

Lemma log_artifact_spec (path : string) (self : pyobj) :
  bag_wf self = true ->
  log_artifact path self =
    Ok (tt, <["_artifacts" := VList (artifacts_of self ++ [path])]> self).
Proof.
  intros Hwf. unfold log_artifact, _get_init_list.
  destruct (bag_wf_artifacts self Hwf) as [H | H].
  - unfold mbind, method_bind. rewrite (_get_init_absent _ _ _ H).
    unfold attr_append. rewrite lookup_insert_eq, insert_insert_eq.
    unfold artifacts_of. by rewrite H.
  - unfold mbind, method_bind. rewrite (_get_init_present _ _ _ _ H).
    unfold attr_append. by rewrite H.
Qed.

(** Writing one of the two bag attributes keeps the shape and leaves the
    other view alone. *)
Lemma bag_wf_set_metrics (m : gmap string Z) (self : pyobj) :
  bag_wf self = true -> bag_wf (<["_metrics" := VDict m]> self) = true.
Proof.
  unfold bag_wf. intros H. apply andb_true_iff in H as [H _].
  rewrite lookup_insert_eq, lookup_insert_ne by done.
  by rewrite H.
Qed.

Lemma bag_wf_set_artifacts (l : list string) (self : pyobj) :
  bag_wf self = true -> bag_wf (<["_artifacts" := VList l]> self) = true.
Proof.
  unfold bag_wf. intros H. apply andb_true_iff in H as [_ H].
  rewrite lookup_insert_eq, lookup_insert_ne by done.
  by rewrite H.
Qed.

Lemma metrics_of_set_metrics (m : gmap string Z) (self : pyobj) :
  metrics_of (<["_metrics" := VDict m]> self) = m.
Proof. unfold metrics_of. by rewrite lookup_insert_eq. Qed.

Lemma artifacts_of_set_artifacts (l : list string) (self : pyobj) :
  artifacts_of (<["_artifacts" := VList l]> self) = l.
Proof. unfold artifacts_of. by rewrite lookup_insert_eq. Qed.

Lemma metrics_of_set_artifacts (l : list string) (self : pyobj) :
  metrics_of (<["_artifacts" := VList l]> self) = metrics_of self.
Proof. unfold metrics_of. by rewrite lookup_insert_ne. Qed.

Lemma artifacts_of_set_metrics (m : gmap string Z) (self : pyobj) :
  artifacts_of (<["_metrics" := VDict m]> self) = artifacts_of self.
Proof. unfold artifacts_of. by rewrite lookup_insert_ne. Qed.

Lemma log_artifact_all_spec (paths : list string) (self : pyobj) :
  bag_wf self = true ->
  paths <> [] ->
  log_artifact_all paths self =
    Ok (tt, <["_artifacts" := VList (artifacts_of self ++ paths)]> self).
Proof.
  revert self. induction paths as [| p ps IH]; intros self Hwf Hne; [done |].
  cbn [log_artifact_all]. unfold mbind, method_bind.
  rewrite (log_artifact_spec p self Hwf).
  destruct ps as [| q qs].
  - reflexivity.
  - rewrite IH by (auto using bag_wf_set_artifacts || done).
    rewrite artifacts_of_set_artifacts, insert_insert_eq.
    by rewrite <- app_assoc.
Qed.

(** One call, whatever it is, succeeds on a well-shaped bag, keeps the
    shape, and touches no attribute other than the bag's two. *)
Lemma run_call_frame (c : mixin_call) (self : pyobj) :
  bag_wf self = true ->
  exists self', run_call c self = Ok (tt, self') /\
    bag_wf self' = true /\
    forall name, name <> "_metrics" -> name <> "_artifacts" ->
      self' !! name = self !! name.
Proof.
  intros Hwf. destruct c as [k v | d | p | |]; cbn [run_call].
  - unfold log_metric. rewrite (log_metrics_spec _ _ Hwf).
    eexists; split; [reflexivity |]. split; [by apply bag_wf_set_metrics |].
    intros name H1 H2. by rewrite lookup_insert_ne.
  - rewrite (log_metrics_spec _ _ Hwf).
    eexists; split; [reflexivity |]. split; [by apply bag_wf_set_metrics |].
    intros name H1 H2. by rewrite lookup_insert_ne.
  - rewrite (log_artifact_spec _ _ Hwf).
    eexists; split; [reflexivity |]. split; [by apply bag_wf_set_artifacts |].
    intros name H1 H2. by rewrite lookup_insert_ne.
  - unfold mbind, method_bind. rewrite (get_metrics_spec _ Hwf).
    eexists; split; [reflexivity |]. split; [by apply bag_wf_set_metrics |].
    intros name H1 H2. by rewrite lookup_insert_ne.
  - unfold mbind, method_bind. rewrite (get_artifacts_spec _ Hwf).
    eexists; split; [reflexivity |]. split; [by apply bag_wf_set_artifacts |].
    intros name H1 H2. by rewrite lookup_insert_ne.
Qed.

Lemma run_calls_frame (cs : list mixin_call) (self : pyobj) :
  bag_wf self = true ->
  exists self', run_calls cs self = Ok (tt, self') /\
    bag_wf self' = true /\
    forall name, name <> "_metrics" -> name <> "_artifacts" ->
      self' !! name = self !! name.
Proof.
  revert self. induction cs as [| c cs IH]; intros self Hwf.
  - exists self. by repeat split.
  - destruct (run_call_frame c self Hwf) as (s1 & E1 & W1 & F1).
    destruct (IH s1 W1) as (s2 & E2 & W2 & F2).
    exists s2. cbn [run_calls]. unfold mbind, method_bind. rewrite E1.
    split; [exact E2 |]. split; [exact W2 |].
    intros name H1 H2. rewrite F2, F1; auto.
Qed.

(** ** Order on datetimes *)

Lemma lex_compare_refl (a : list Z) : lex_compare a a = Eq.
Proof. induction a as [| x a IH]; [done |]. cbn. by rewrite Z.compare_refl. Qed.

Lemma lex_compare_le_trans (a b c : list Z) :
  lex_compare a b <> Gt -> lex_compare b c <> Gt -> lex_compare a c <> Gt.
Proof.
  revert b c. induction a as [| x a IH]; intros [| y b] [| z c]; cbn; try done.
  destruct (Z.compare_spec x y), (Z.compare_spec y z), (Z.compare_spec x z);
    subst; try lia; try done; eauto.
Qed.

Lemma dt_le_refl (d : datetime) : dt_le d d = true.
Proof. unfold dt_le. by rewrite lex_compare_refl. Qed.

Lemma dt_le_trans (a b c : datetime) :
  dt_le a b = true -> dt_le b c = true -> dt_le a c = true.
Proof.
  unfold dt_le. intros H1 H2.
  pose proof (lex_compare_le_trans (dt_fields a) (dt_fields b) (dt_fields c)) as T.
  destruct (lex_compare (dt_fields a) (dt_fields b)); try discriminate;
    destruct (lex_compare (dt_fields b) (dt_fields c)); try discriminate;
    destruct (lex_compare (dt_fields a) (dt_fields c)); try done;
    exfalso; by apply T.
Qed.

Ltac dt_order :=
  unfold dt_le, dt_fields, with_date, with_hour;
  cbn [lex_compare year month day hour minute second microsecond];
  repeat match goal with
         | |- context [?a ?= ?b] =>
             destruct (Z.compare_spec a b); try lia;
             cbn [lex_compare year month day hour minute second microsecond]
         end;
  try done.

Lemma dt_le_next_day (d : datetime) : dt_le d (next_day d) = true.
Proof.
  unfold next_day.
  destruct (day d <? days_in_month (year d) (month d)) eqn:E1;
    [apply Z.ltb_lt in E1; dt_order |].
  destruct (month d <? 12) eqn:E2; [apply Z.ltb_lt in E2 |]; dt_order.
Qed.

Lemma dt_le_prev_day (d : datetime) : dt_le (prev_day d) d = true.
Proof.
  unfold prev_day.
  destruct (1 <? day d) eqn:E1; [apply Z.ltb_lt in E1; dt_order |].
  destruct (1 <? month d) eqn:E2; [apply Z.ltb_lt in E2 |]; dt_order.
Qed.

Lemma dt_le_iter_next (n : nat) (d : datetime) :
  dt_le d (Nat.iter n next_day d) = true.
Proof.
  induction n as [| n IH]; cbn; [apply dt_le_refl |].
  eapply dt_le_trans; [exact IH | apply dt_le_next_day].
Qed.

Lemma dt_le_iter_prev (n : nat) (d : datetime) :
  dt_le (Nat.iter n prev_day d) d = true.
Proof.
  induction n as [| n IH]; cbn; [apply dt_le_refl |].
  eapply dt_le_trans; [apply dt_le_prev_day | exact IH].
Qed.

Lemma spec_create_forecaster_dates_contract :
  deriver_contract spec_create_forecaster_dates.
Proof.
  intros e tw fw Htw Hfw. unfold spec_create_forecaster_dates, shift_days.
  split.
  - destruct (0 <=? - tw) eqn:E.
    + apply Z.leb_le in E. replace tw with 0 by lia. cbn. apply dt_le_refl.
    + apply dt_le_iter_prev.
  - destruct (0 <=? fw) eqn:E; [apply dt_le_iter_next |].
    apply Z.leb_gt in E. lia.
Qed.

(** Resetting the hour to 0 cannot move a datetime forward. *)
Lemma dt_le_with_hour_0 (d : datetime) :
  0 <= hour d -> dt_le (with_hour d 0) d = true.
Proof. intros H. dt_order. Qed.

(** ** TimeRangeConfiguration *)

Section trc_dict_lookups.
Variables (sd ed fd : datetime) (tw fw : Z) (g name : string).

Lemma trc_dict_start_date :
  trc_dict sd ed fd tw fw g name !! "_start_date" = Some (VDate sd).
Proof. unfold trc_dict. by simplify_map_eq. Qed.

Lemma trc_dict_end_date :
  trc_dict sd ed fd tw fw g name !! "_end_date" = Some (VDate ed).
Proof. unfold trc_dict. by simplify_map_eq. Qed.

Lemma trc_dict_future_date :
  trc_dict sd ed fd tw fw g name !! "_future_date" = Some (VDate fd).
Proof. unfold trc_dict. by simplify_map_eq. Qed.

Lemma trc_dict_forecast_train_window :
  trc_dict sd ed fd tw fw g name !! "_forecast_train_window" = Some (VInt tw).
Proof. unfold trc_dict. by simplify_map_eq. Qed.

Lemma trc_dict_forecast_future_window :
  trc_dict sd ed fd tw fw g name !! "_forecast_future_window" = Some (VInt fw).
Proof. unfold trc_dict. by simplify_map_eq. Qed.

Lemma trc_dict_time_granularity :
  trc_dict sd ed fd tw fw g name !! "_time_granularity" = Some (VStr g).
Proof. unfold trc_dict. by simplify_map_eq. Qed.

Lemma trc_dict_time_granularity_name :
  trc_dict sd ed fd tw fw g name !! "_time_granularity_name" = Some (VStr name).
Proof. unfold trc_dict. by simplify_map_eq. Qed.

Lemma trc_dict_no_artifacts :
  trc_dict sd ed fd tw fw g name !! "_artifacts" = None.
Proof. unfold trc_dict. by simplify_map_eq. Qed.

Lemma trc_dict_no_metrics :
  trc_dict sd ed fd tw fw g name !! "_metrics" = None.
Proof. unfold trc_dict. by simplify_map_eq. Qed.

Lemma trc_dict_bag_wf : bag_wf (trc_dict sd ed fd tw fw g name) = true.
Proof.
  unfold bag_wf. by rewrite trc_dict_no_artifacts, trc_dict_no_metrics.
Qed.
End trc_dict_lookups.

Lemma _validate_construction_trc_dict sd ed fd tw fw g name :
  _validate_construction (trc_dict sd ed fd tw fw g name) =
    if negb (dt_le sd ed) then
      Raise (ValueError [Lit "Bad dates passed. Start:"; Interp (VDate sd);
                         Lit ", end:"; Interp (VDate ed); Lit "."])
    else if negb (dt_le ed fd) then
      Raise (ValueError [Lit "Bad dates passed. End:"; Interp (VDate ed);
                         Lit ", future:"; Interp (VDate fd); Lit "."])
    else if negb (py_in (VStr g) TIME_GRANULARITIES) then
      Raise (ValueError [Lit "Bad time granularity passed:"; Interp (VStr g);
                         Lit ", "; Lit "Possible values are: ";
                         Interp (VList TIME_GRANULARITIES);
                         Lit (String (Ascii.ascii_of_nat 10) EmptyString)])
    else Ok (tt, trc_dict sd ed fd tw fw g name).
Proof.
  unfold _validate_construction, mbind, method_bind, getattr.
  rewrite trc_dict_start_date, trc_dict_end_date.
  unfold lift, py_le, as_date, mbind, result_bind, mret, result_ret.
  destruct (dt_le sd ed); cbn [negb]; [| reflexivity].
  unfold method_ret. rewrite trc_dict_end_date, trc_dict_future_date.
  destruct (dt_le ed fd); cbn [negb]; [| reflexivity].
  rewrite trc_dict_time_granularity.
  destruct (py_in (VStr g) TIME_GRANULARITIES); reflexivity.
Qed.

Lemma __init___steps derive e tw fw g h :
  __init__ derive e tw fw g h ∅ =
    let '(sd, ed, fd) := derive e tw fw in
    match replace_hour ed h with
    | Raise x => Raise x
    | Ok ed' =>
        match dict_getitem TIME_GRANULARITY_NAME_MAP g with
        | Raise x => Raise x
        | Ok name => _validate_construction (trc_dict sd ed' fd tw fw g name)
        end
    end.
Proof.
  unfold __init__. destruct (derive e tw fw) as [[sd ed] fd].
  unfold mbind, method_bind, lift, setattr.
  destruct (replace_hour ed h) as [ed' | x]; [| reflexivity].
  destruct (dict_getitem TIME_GRANULARITY_NAME_MAP g) as [name | x];
    reflexivity.
Qed.

(** The dict lookup and the membership test agree on which codes exist. *)
Lemma dict_getitem_Ok d k v :
  dict_getitem d k = Ok v -> k ∈ d.*1.
Proof.
  induction d as [| [k' v'] d IH]; cbn; [done |].
  case_bool_decide; subst.
  - intros _. apply list_elem_of_here.
  - intros Hd. apply list_elem_of_further. auto.
Qed.

Lemma dict_getitem_missing d k :
  k ∉ d.*1 -> dict_getitem d k = Raise (KeyError k).
Proof.
  induction d as [| [k' v'] d IH]; cbn; [done |].
  intros H. apply not_elem_of_cons in H as [H1 H2].
  rewrite bool_decide_eq_false_2 by congruence. auto.
Qed.

Lemma dict_getitem_present d k :
  k ∈ d.*1 -> exists v, dict_getitem d k = Ok v.
Proof.
  induction d as [| [k' v'] d IH]; cbn; [by intros ?%elem_of_nil |].
  intros H. case_bool_decide; [by eexists |].
  apply elem_of_cons in H as [H | H]; [congruence | auto].
Qed.

Lemma py_in_str g l : py_in (VStr g) l = true <-> g ∈ l.
Proof.
  unfold py_in. rewrite existsb_exists. split.
  - intros (s & Hin & Hs). apply bool_decide_eq_true in Hs.
    injection Hs as ->. by apply list_elem_of_In.
  - intros H. exists g. split; [by apply list_elem_of_In |].
    by apply bool_decide_eq_true.
Qed.

Lemma TimeRangeConfiguration_unfold derive e tw fw g h :
  TimeRangeConfiguration derive e tw fw g h =
    match __init__ derive e tw fw g h ∅ with
    | Ok (_, self) => Ok self
    | Raise x => Raise x
    end.
Proof.
  unfold TimeRangeConfiguration, mbind, result_bind.
  by destruct (__init__ derive e tw fw g h ∅) as [[[] self] | x].
Qed.

(** Construction succeeds exactly when the hour is in range, the code is a
    key of the name table and the dates are ordered after the override; the
    instance then carries the seven attributes and nothing else. *)
Lemma TimeRangeConfiguration_Ok_inv derive e tw fw g h self sd ed fd :
  derive e tw fw = (sd, ed, fd) ->
  TimeRangeConfiguration derive e tw fw g h = Ok self ->
  0 <= h <= 23 /\
  dt_le sd (with_hour ed h) = true /\
  dt_le (with_hour ed h) fd = true /\
  exists name,
    dict_getitem TIME_GRANULARITY_NAME_MAP g = Ok name /\
    self = trc_dict sd (with_hour ed h) fd tw fw g name.
Proof.
  intros Hd. rewrite TimeRangeConfiguration_unfold, __init___steps, Hd.
  unfold replace_hour.
  destruct ((0 <=? h) && (h <=? 23)) eqn:Eh; [| discriminate].
  apply andb_true_iff in Eh as [?%Z.leb_le ?%Z.leb_le].
  destruct (dict_getitem TIME_GRANULARITY_NAME_MAP g) as [name | x] eqn:Eg;
    [| discriminate].
  rewrite _validate_construction_trc_dict.
  destruct (dt_le sd (with_hour ed h)); cbn [negb]; [| discriminate].
  destruct (dt_le (with_hour ed h) fd); cbn [negb]; [| discriminate].
  destruct (py_in (VStr g) TIME_GRANULARITIES); cbn [negb]; [| discriminate].
  intros [= <-]. repeat split; try lia. by exists name.
Qed.

Lemma TimeRangeConfiguration_Ok_intro derive e tw fw g h sd ed fd :
  derive e tw fw = (sd, ed, fd) ->
  0 <= h <= 23 ->
  g ∈ TIME_GRANULARITIES ->
  dt_le sd (with_hour ed h) = true ->
  dt_le (with_hour ed h) fd = true ->
  exists name,
    dict_getitem TIME_GRANULARITY_NAME_MAP g = Ok name /\
    TimeRangeConfiguration derive e tw fw g h =
      Ok (trc_dict sd (with_hour ed h) fd tw fw g name).
Proof.
  intros Hd Hh Hg H1 H2.
  destruct (dict_getitem_present TIME_GRANULARITY_NAME_MAP g Hg) as [name Eg].
  exists name. split; [exact Eg |].
  rewrite TimeRangeConfiguration_unfold, __init___steps, Hd.
  unfold replace_hour.
  replace ((0 <=? h) && (h <=? 23)) with true
    by (symmetry; apply andb_true_iff; split; apply Z.leb_le; lia).
  rewrite Eg, _validate_construction_trc_dict, H1, H2. cbn [negb].
  by replace (py_in (VStr g) TIME_GRANULARITIES) with true
    by (symmetry; by apply py_in_str).
Qed.

(** An unknown code stops construction at the name-table lookup. *)
Lemma unknown_granularity_KeyError derive e tw fw g h :
  0 <= h <= 23 ->
  g ∉ TIME_GRANULARITIES ->
  TimeRangeConfiguration derive e tw fw g h = Raise (KeyError g).
Proof.
  intros Hh Hg.
  rewrite TimeRangeConfiguration_unfold, __init___steps.
  destruct (derive e tw fw) as [[sd ed] fd]. unfold replace_hour.
  replace ((0 <=? h) && (h <=? 23)) with true
    by (symmetry; apply andb_true_iff; split; apply Z.leb_le; lia).
  by rewrite (dict_getitem_missing _ _ Hg).
Qed.

(** The granularity branch of [_validate_construction] is never the one
    that ends a construction. *)
Lemma granularity_ValueError_unreachable derive e tw fw g h rest :
  TimeRangeConfiguration derive e tw fw g h <>
    Raise (ValueError (Lit "Bad time granularity passed:" :: rest)).
Proof.
  rewrite TimeRangeConfiguration_unfold, __init___steps.
  destruct (derive e tw fw) as [[sd ed] fd]. unfold replace_hour.
  destruct ((0 <=? h) && (h <=? 23)); [| discriminate].
  destruct (dict_getitem TIME_GRANULARITY_NAME_MAP g) as [name | x] eqn:Eg.
  - rewrite _validate_construction_trc_dict.
    destruct (dt_le sd (with_hour ed h)); cbn [negb]; [| discriminate].
    destruct (dt_le (with_hour ed h) fd); cbn [negb]; [| discriminate].
    apply dict_getitem_Ok, py_in_str in Eg.
    unfold TIME_GRANULARITIES. rewrite Eg. discriminate.
  - destruct (decide (g ∈ TIME_GRANULARITY_NAME_MAP.*1)) as [Hin | Hout].
    + destruct (dict_getitem_present _ _ Hin) as [v Ev]. congruence.
    + rewrite (dict_getitem_missing _ _ Hout) in Eg. injection Eg as <-.
      discriminate.
Qed.

(** A date order broken by the override is reported with both dates. *)
Lemma bad_start_end_ValueError derive e tw fw g h sd ed fd :
  derive e tw fw = (sd, ed, fd) ->
  0 <= h <= 23 ->
  g ∈ TIME_GRANULARITIES ->
  dt_le sd (with_hour ed h) = false ->
  TimeRangeConfiguration derive e tw fw g h =
    Raise (ValueError [Lit "Bad dates passed. Start:"; Interp (VDate sd);
                       Lit ", end:"; Interp (VDate (with_hour ed h)); Lit "."]).
Proof.
  intros Hd Hh Hg H1.
  destruct (dict_getitem_present TIME_GRANULARITY_NAME_MAP g Hg) as [name Eg].
  rewrite TimeRangeConfiguration_unfold, __init___steps, Hd.
  unfold replace_hour.
  replace ((0 <=? h) && (h <=? 23)) with true
    by (symmetry; apply andb_true_iff; split; apply Z.leb_le; lia).
  by rewrite Eg, _validate_construction_trc_dict, H1.
Qed.

(** Membership of a literal code in [TIME_GRANULARITIES]. *)
Ltac unfold_granularities :=
  unfold TIME_GRANULARITIES, TIME_GRANULARITY_NAME_MAP,
    HOURLY_TIME_GRANULARITY, DAILY_TIME_GRANULARITY,
    WEEKLY_TIME_GRANULARITY, MONTHLY_TIME_GRANULARITY in *;
  cbn [fmap list_fmap fst] in *.

Ltac in_granularities :=
  unfold_granularities; rewrite !elem_of_cons; auto 10.

Ltac not_in_granularities :=
  unfold_granularities; rewrite !not_elem_of_cons;
  repeat split; (discriminate || apply not_elem_of_nil).

(** * The claims *)

(** C1, evaluated on the code at an unknown code: constructing with
    granularity ["X"] (anchor 2019-07-01, windows 1460 and 365, default
    [end_hour]) does fail and hands out no instance, but the failure is the
    [KeyError] of the name-table lookup in [__init__]; the [ValueError] that
    [_validate_construction] prepares for unknown codes is never reached. *)
Theorem unknown_code_X_raises_KeyError :
  TimeRangeConfiguration spec_create_forecaster_dates july_1st_2019 1460 365
    "X" 0 = Raise (KeyError "X").
Proof.
  apply unknown_granularity_KeyError; [lia | not_in_granularities].
Qed.

(** C2, as the code has it: for non-negative windows and a granularity in
    [{H, D, W, M}], with [end_hour] at its default 0 and a deriver that meets
    its contract, construction succeeds and the instance satisfies
    [start_date <= end_date <= future_date] when the derived start is not
    later than the derived end with its hour set to 0; when it is later,
    construction is refused with the 'Bad dates passed' [ValueError] that
    carries the start and the overridden end. *)
Theorem valid_inputs_construct_ordered derive e tw fw g sd ed fd :
  deriver_contract derive ->
  0 <= tw -> 0 <= fw ->
  g ∈ TIME_GRANULARITIES ->
  derive e tw fw = (sd, ed, fd) ->
  0 <= hour ed ->
  if dt_le sd (with_hour ed 0) then
    exists self,
      TimeRangeConfiguration derive e tw fw g 0 = Ok self /\
      start_date self = Ok (VDate sd) /\
      end_date self = Ok (VDate (with_hour ed 0)) /\
      future_date self = Ok (VDate fd) /\
      dt_le sd (with_hour ed 0) = true /\
      dt_le (with_hour ed 0) fd = true
  else
    TimeRangeConfiguration derive e tw fw g 0 =
      Raise (ValueError [Lit "Bad dates passed. Start:"; Interp (VDate sd);
                         Lit ", end:"; Interp (VDate (with_hour ed 0));
                         Lit "."]).
Proof.
  intros Hc Htw Hfw Hg Hd Hh.
  destruct (dt_le sd (with_hour ed 0)) eqn:H1.
  - pose proof (Hc e tw fw Htw Hfw) as Hc'. rewrite Hd in Hc'.
    destruct Hc' as [_ Hef].
    assert (H2 : dt_le (with_hour ed 0) fd = true)
      by (eapply dt_le_trans; [by apply dt_le_with_hour_0 | exact Hef]).
    destruct (TimeRangeConfiguration_Ok_intro derive e tw fw g 0 sd ed fd)
      as (name & _ & E); auto; [lia |].
    exists (trc_dict sd (with_hour ed 0) fd tw fw g name).
    split; [exact E |].
    unfold start_date, end_date, future_date, property.
    by rewrite trc_dict_start_date, trc_dict_end_date, trc_dict_future_date.
  - apply (bad_start_end_ValueError derive e tw fw g 0 sd ed fd);
      [exact Hd | lia | exact Hg | exact H1].
Qed.

Lemma valid_inputs_construct_ordered_witness :
  (exists self,
     TimeRangeConfiguration spec_create_forecaster_dates july_1st_2019_morning
       1460 365 "M" 0 = Ok self /\
     start_date self = Ok (VDate (mk_datetime 2015 7 2 10 30 15 500)) /\
     end_date self = Ok (VDate (mk_datetime 2019 7 1 0 30 15 500)) /\
     future_date self = Ok (VDate (mk_datetime 2020 6 30 10 30 15 500)) /\
     dt_le (mk_datetime 2015 7 2 10 30 15 500)
       (mk_datetime 2019 7 1 0 30 15 500) = true /\
     dt_le (mk_datetime 2019 7 1 0 30 15 500)
       (mk_datetime 2020 6 30 10 30 15 500) = true) /\
  TimeRangeConfiguration spec_create_forecaster_dates july_1st_2019_morning
    0 365 "M" 0 =
    Raise (ValueError [Lit "Bad dates passed. Start:";
                       Interp (VDate july_1st_2019_morning);
                       Lit ", end:";
                       Interp (VDate (mk_datetime 2019 7 1 0 30 15 500));
                       Lit "."]).
Proof.
  split.
  - exact (valid_inputs_construct_ordered spec_create_forecaster_dates
             july_1st_2019_morning 1460 365 "M"
             (mk_datetime 2015 7 2 10 30 15 500) july_1st_2019_morning
             (mk_datetime 2020 6 30 10 30 15 500)
             spec_create_forecaster_dates_contract
             ltac:(lia) ltac:(lia) ltac:(in_granularities)
             ltac:(vm_compute; reflexivity) ltac:(cbn; lia)).
  - exact (valid_inputs_construct_ordered spec_create_forecaster_dates
             july_1st_2019_morning 0 365 "M"
             july_1st_2019_morning july_1st_2019_morning
             (mk_datetime 2020 6 30 10 30 15 500)
             spec_create_forecaster_dates_contract
             ltac:(lia) ltac:(lia) ltac:(in_granularities)
             ltac:(vm_compute; reflexivity) ltac:(cbn; lia)).
Defined.

(** C2 as stated fails: the deriver modelled from the spec meets the
    contract, yet with a zero training window, a future window of 365 days
    and an anchor at 10:30 the override moves the end before the start and
    construction is refused. *)
Lemma zero_train_window_morning_anchor_rejected :
  deriver_contract spec_create_forecaster_dates /\
  "D" ∈ TIME_GRANULARITIES /\
  TimeRangeConfiguration spec_create_forecaster_dates july_1st_2019_morning
    0 365 "D" 0 =
    Raise (ValueError
             [Lit "Bad dates passed. Start:";
              Interp (VDate july_1st_2019_morning);
              Lit ", end:";
              Interp (VDate (mk_datetime 2019 7 1 0 30 15 500));
              Lit "."]) /\
  forall self,
    TimeRangeConfiguration spec_create_forecaster_dates july_1st_2019_morning
      0 365 "D" 0 <> Ok self.
Proof.
  assert (Hg : "D" ∈ TIME_GRANULARITIES)
    by in_granularities.
  assert (E : TimeRangeConfiguration spec_create_forecaster_dates
                july_1st_2019_morning 0 365 "D" 0 =
              Raise (ValueError
                       [Lit "Bad dates passed. Start:";
                        Interp (VDate july_1st_2019_morning);
                        Lit ", end:";
                        Interp (VDate (mk_datetime 2019 7 1 0 30 15 500));
                        Lit "."])).
  { apply (bad_start_end_ValueError spec_create_forecaster_dates
             july_1st_2019_morning 0 365 "D" 0
             july_1st_2019_morning july_1st_2019_morning
             (mk_datetime 2020 6 30 10 30 15 500));
      [vm_compute; reflexivity | lia | exact Hg | reflexivity]. }
  split; [exact spec_create_forecaster_dates_contract |].
  split; [exact Hg |]. split; [exact E |].
  intros self. rewrite E. discriminate.
Qed.

(** C3, evaluated on the code at an input whose granularity invariant
    fails: with the pandas alias ["Q"] (anchor 2019-07-01 10:30:15.000500,
    windows 1460 and 365, [end_hour=6]) construction ends in [KeyError "Q"],
    which is no [ValueError] and carries neither the name of the invariant
    nor the list of possible values. *)
Theorem unknown_code_Q_raises_KeyError :
  TimeRangeConfiguration spec_create_forecaster_dates july_1st_2019_morning
    1460 365 "Q" 6 = Raise (KeyError "Q").
Proof.
  apply unknown_granularity_KeyError; [lia | not_in_granularities].
Qed.

(** C4: on every successfully constructed instance, [end_date] is the
    derived end date with its hour set to [end_hour] and its minute, second
    and microsecond (and its date) as derived, while [start_date] and
    [future_date] are the derived ones unchanged. *)
Theorem end_hour_overrides_only_the_hour derive e tw fw g h self sd ed fd :
  derive e tw fw = (sd, ed, fd) ->
  TimeRangeConfiguration derive e tw fw g h = Ok self ->
  exists ed',
    end_date self = Ok (VDate ed') /\
    hour ed' = h /\
    minute ed' = minute ed /\
    second ed' = second ed /\
    microsecond ed' = microsecond ed /\
    (year ed', month ed', day ed') = (year ed, month ed, day ed) /\
    start_date self = Ok (VDate sd) /\
    future_date self = Ok (VDate fd).
Proof.
  intros Hd HOk.
  destruct (TimeRangeConfiguration_Ok_inv _ _ _ _ _ _ _ _ _ _ Hd HOk)
    as (_ & _ & _ & name & _ & ->).
  exists (with_hour ed h).
  unfold start_date, end_date, future_date, property.
  rewrite trc_dict_start_date, trc_dict_end_date, trc_dict_future_date.
  by repeat split.
Qed.

Lemma end_hour_overrides_only_the_hour_witness :
  exists ed',
    end_date (trc_dict (mk_datetime 2015 7 2 10 30 15 500)
                (mk_datetime 2019 7 1 6 30 15 500)
                (mk_datetime 2020 6 30 10 30 15 500) 1460 365 "M" "monthly")
      = Ok (VDate ed') /\
    hour ed' = 6 /\
    minute ed' = minute july_1st_2019_morning /\
    second ed' = second july_1st_2019_morning /\
    microsecond ed' = microsecond july_1st_2019_morning /\
    (year ed', month ed', day ed') =
      (year july_1st_2019_morning, month july_1st_2019_morning,
       day july_1st_2019_morning) /\
    start_date (trc_dict (mk_datetime 2015 7 2 10 30 15 500)
                  (mk_datetime 2019 7 1 6 30 15 500)
                  (mk_datetime 2020 6 30 10 30 15 500) 1460 365 "M" "monthly")
      = Ok (VDate (mk_datetime 2015 7 2 10 30 15 500)) /\
    future_date (trc_dict (mk_datetime 2015 7 2 10 30 15 500)
                   (mk_datetime 2019 7 1 6 30 15 500)
                   (mk_datetime 2020 6 30 10 30 15 500) 1460 365 "M" "monthly")
      = Ok (VDate (mk_datetime 2020 6 30 10 30 15 500)).
Proof.
  apply (end_hour_overrides_only_the_hour spec_create_forecaster_dates
           july_1st_2019_morning 1460 365 "M" 6).
  - vm_compute. reflexivity.
  - vm_compute. reflexivity.
Defined.

(** C5: on every successfully constructed instance each of [is_hourly],
    [is_daily], [is_weekly], [is_monthly] answers whether the granularity
    code passed at construction is its own code, and exactly one of the
    four answers is [True]. *)
Theorem exactly_one_granularity_predicate derive e tw fw g h self :
  TimeRangeConfiguration derive e tw fw g h = Ok self ->
  exists bh bd bw bm,
    time_granularity self = Ok (VStr g) /\
    is_hourly self = Ok bh /\ is_daily self = Ok bd /\
    is_weekly self = Ok bw /\ is_monthly self = Ok bm /\
    (bh = true <-> g = HOURLY_TIME_GRANULARITY) /\
    (bd = true <-> g = DAILY_TIME_GRANULARITY) /\
    (bw = true <-> g = WEEKLY_TIME_GRANULARITY) /\
    (bm = true <-> g = MONTHLY_TIME_GRANULARITY) /\
    true_count [bh; bd; bw; bm] = 1%nat.
Proof.
  intros HOk.
  destruct (derive e tw fw) as [[sd ed] fd] eqn:Hd.
  destruct (TimeRangeConfiguration_Ok_inv _ _ _ _ _ _ _ _ _ _ Hd HOk)
    as (_ & _ & _ & name & Eg & ->).
  apply dict_getitem_Ok in Eg.
  exists (bool_decide (VStr g = VStr HOURLY_TIME_GRANULARITY)),
         (bool_decide (VStr g = VStr DAILY_TIME_GRANULARITY)),
         (bool_decide (VStr g = VStr WEEKLY_TIME_GRANULARITY)),
         (bool_decide (VStr g = VStr MONTHLY_TIME_GRANULARITY)).
  unfold is_hourly, is_daily, is_weekly, is_monthly, time_granularity, property.
  rewrite trc_dict_time_granularity.
  do 5 (split; [reflexivity |]).
  do 4 (split; [rewrite bool_decide_eq_true; split; congruence |]).
  unfold_granularities.
  rewrite !elem_of_cons, elem_of_nil in Eg.
  destruct Eg as [-> | [-> | [-> | [-> | []]]]]; reflexivity.
Qed.

Lemma exactly_one_granularity_predicate_witness :
  exists bh bd bw bm,
    time_granularity
      (trc_dict (midnight 2015 7 2) july_1st_2019 (midnight 2020 6 30)
         1460 365 "M" "monthly") = Ok (VStr "M") /\
    is_hourly
      (trc_dict (midnight 2015 7 2) july_1st_2019 (midnight 2020 6 30)
         1460 365 "M" "monthly") = Ok bh /\
    is_daily
      (trc_dict (midnight 2015 7 2) july_1st_2019 (midnight 2020 6 30)
         1460 365 "M" "monthly") = Ok bd /\
    is_weekly
      (trc_dict (midnight 2015 7 2) july_1st_2019 (midnight 2020 6 30)
         1460 365 "M" "monthly") = Ok bw /\
    is_monthly
      (trc_dict (midnight 2015 7 2) july_1st_2019 (midnight 2020 6 30)
         1460 365 "M" "monthly") = Ok bm /\
    (bh = true <-> "M" = HOURLY_TIME_GRANULARITY) /\
    (bd = true <-> "M" = DAILY_TIME_GRANULARITY) /\
    (bw = true <-> "M" = WEEKLY_TIME_GRANULARITY) /\
    (bm = true <-> "M" = MONTHLY_TIME_GRANULARITY) /\
    true_count [bh; bd; bw; bm] = 1%nat.
Proof.
  apply (exactly_one_granularity_predicate spec_create_forecaster_dates
           july_1st_2019 1460 365 "M" 0).
  vm_compute. reflexivity.
Defined.

(** C6: on every attribute bag, [log_metric(k, v1)] then
    [log_metric(k, v2)] leaves [get_metrics()] mapping [k] to [v2] and every
    other key to what it held before; and [log_metrics(d)] leaves
    [get_metrics()] mapping each key of [d] to its value in [d] and every
    other key to what it held before. *)
Theorem log_metric_last_write_wins (self : pyobj) :
  bag_wf self = true ->
  (forall k v1 v2, exists (m : gmap string Z) self',
      (log_metric k v1;; log_metric k v2;; get_metrics) self
        = Ok (VDict m, self') /\
      m !! k = Some v2 /\
      forall k', k' <> k -> m !! k' = metrics_of self !! k') /\
  (forall d : gmap string Z, exists (m : gmap string Z) self',
      (log_metrics d;; get_metrics) self = Ok (VDict m, self') /\
      forall k, m !! k = match d !! k with
                         | Some v => Some v
                         | None => metrics_of self !! k
                         end).
Proof.
  intros Hwf. split.
  - intros k v1 v2. unfold log_metric, mbind, method_bind.
    rewrite (log_metrics_spec _ _ Hwf).
    rewrite log_metrics_spec by by apply bag_wf_set_metrics.
    rewrite get_metrics_spec by by do 2 apply bag_wf_set_metrics.
    rewrite !metrics_of_set_metrics.
    eexists _, _. split; [reflexivity |]. split.
    + apply lookup_union_Some_l, lookup_singleton_eq.
    + intros k' Hne.
      rewrite !lookup_union_r by by apply lookup_singleton_ne. done.
  - intros d. unfold mbind, method_bind.
    rewrite (log_metrics_spec _ _ Hwf).
    rewrite get_metrics_spec by by apply bag_wf_set_metrics.
    rewrite metrics_of_set_metrics.
    eexists _, _. split; [reflexivity |].
    intros k. destruct (d !! k) as [v |] eqn:E.
    + by apply lookup_union_Some_l.
    + by apply lookup_union_r.
Qed.

Lemma log_metric_last_write_wins_witness :
  (forall k v1 v2, exists (m : gmap string Z) self',
      (log_metric k v1;; log_metric k v2;; get_metrics) logged_bag
        = Ok (VDict m, self') /\
      m !! k = Some v2 /\
      forall k', k' <> k -> m !! k' = metrics_of logged_bag !! k') /\
  (forall d : gmap string Z, exists (m : gmap string Z) self',
      (log_metrics d;; get_metrics) logged_bag = Ok (VDict m, self') /\
      forall k, m !! k = match d !! k with
                         | Some v => Some v
                         | None => metrics_of logged_bag !! k
                         end).
Proof.
  apply (log_metric_last_write_wins logged_bag). vm_compute. reflexivity.
Defined.

(** The spec's example: on an untouched bag, [log_metric('a', 1)] then
    [log_metric('a', 2)] leaves [get_metrics() == {'a': 2}]. *)
Example log_metric_a_1_a_2 :
  exists self',
    (log_metric "a" 1;; log_metric "a" 2;; get_metrics) ∅
      = Ok (VDict {["a" := 2]}, self').
Proof.
  unfold log_metric, mbind, method_bind.
  rewrite (log_metrics_spec _ ∅ bag_wf_empty).
  rewrite log_metrics_spec by by apply bag_wf_set_metrics.
  rewrite get_metrics_spec by by do 2 apply bag_wf_set_metrics.
  rewrite !metrics_of_set_metrics.
  eexists. reflexivity.
Qed.

(** C7: on every attribute bag, after any sequence of [log_artifact] calls
    [get_artifacts()] returns the paths held before followed by the logged
    paths in call order, repetitions included; on a bag never logged to it
    returns exactly the logged paths, and [log_artifact('x')] then
    [log_artifact('y')] yields [['x', 'y']]. *)
Theorem get_artifacts_returns_logged_paths (self : pyobj) (paths : list string) :
  bag_wf self = true ->
  (exists self',
     (log_artifact_all paths;; get_artifacts) self
       = Ok (VList (artifacts_of self ++ paths), self')) /\
  (self !! "_artifacts" = None ->
   exists self',
     (log_artifact_all paths;; get_artifacts) self = Ok (VList paths, self')) /\
  (exists self',
     (log_artifact "x";; log_artifact "y";; get_artifacts) ∅
       = Ok (VList ["x"; "y"], self')).
Proof.
  intros Hwf.
  assert (G : exists self',
             (log_artifact_all paths;; get_artifacts) self
               = Ok (VList (artifacts_of self ++ paths), self')).
  { unfold mbind, method_bind. destruct paths as [| p ps].
    - cbn [log_artifact_all]. unfold mret, method_ret.
      rewrite (get_artifacts_spec _ Hwf), app_nil_r. by eexists.
    - rewrite (log_artifact_all_spec (p :: ps) self Hwf) by done.
      rewrite get_artifacts_spec by by apply bag_wf_set_artifacts.
      rewrite artifacts_of_set_artifacts. by eexists. }
  split; [exact G |]. split.
  - intros Hnone. destruct G as [self' G]. exists self'.
    rewrite G. unfold artifacts_of. by rewrite Hnone.
  - unfold mbind, method_bind.
    rewrite (log_artifact_spec _ ∅ bag_wf_empty).
    rewrite log_artifact_spec by by apply bag_wf_set_artifacts.
    rewrite get_artifacts_spec by by do 2 apply bag_wf_set_artifacts.
    rewrite !artifacts_of_set_artifacts. by eexists.
Qed.

Lemma get_artifacts_returns_logged_paths_witness :
  (exists self',
     (log_artifact_all ["x"; "y"; "x"];; get_artifacts) logged_bag
       = Ok (VList (artifacts_of logged_bag ++ ["x"; "y"; "x"]), self')) /\
  (logged_bag !! "_artifacts" = None ->
   exists self',
     (log_artifact_all ["x"; "y"; "x"];; get_artifacts) logged_bag
       = Ok (VList ["x"; "y"; "x"], self')) /\
  (exists self',
     (log_artifact "x";; log_artifact "y";; get_artifacts) ∅
       = Ok (VList ["x"; "y"], self')).
Proof.
  apply (get_artifacts_returns_logged_paths logged_bag ["x"; "y"; "x"]).
  vm_compute. reflexivity.
Defined.

(** C8: on an object that has never been logged to, [get_metrics()]
    returns the empty mapping and [get_artifacts()] the empty sequence, in
    either order, and neither call raises. *)
Theorem untouched_bag_reads_empty (self : pyobj) :
  self !! "_metrics" = None ->
  self !! "_artifacts" = None ->
  (exists self', get_metrics self = Ok (VDict ∅, self')) /\
  (exists self', get_artifacts self = Ok (VList [], self')) /\
  (exists self1 self2,
     get_metrics self = Ok (VDict ∅, self1) /\
     get_artifacts self1 = Ok (VList [], self2)) /\
  (exists self1 self2,
     get_artifacts self = Ok (VList [], self1) /\
     get_metrics self1 = Ok (VDict ∅, self2)).
Proof.
  intros Hm Ha.
  assert (Hwf : bag_wf self = true) by (unfold bag_wf; by rewrite Hm, Ha).
  assert (Em : metrics_of self = ∅) by (unfold metrics_of; by rewrite Hm).
  assert (Ea : artifacts_of self = []) by (unfold artifacts_of; by rewrite Ha).
  pose proof (get_metrics_spec self Hwf) as Gm. rewrite Em in Gm.
  pose proof (get_artifacts_spec self Hwf) as Ga. rewrite Ea in Ga.
  split; [by eexists |]. split; [by eexists |]. split.
  - eexists _, _. split; [exact Gm |].
    rewrite get_artifacts_spec by by apply bag_wf_set_metrics.
    by rewrite artifacts_of_set_metrics, Ea.
  - eexists _, _. split; [exact Ga |].
    rewrite get_metrics_spec by by apply bag_wf_set_artifacts.
    by rewrite metrics_of_set_artifacts, Em.
Qed.

Lemma untouched_bag_reads_empty_witness :
  (exists self',
     get_metrics (trc_dict (midnight 2015 7 2) july_1st_2019
                    (midnight 2020 6 30) 1460 365 "M" "monthly")
       = Ok (VDict ∅, self')) /\
  (exists self',
     get_artifacts (trc_dict (midnight 2015 7 2) july_1st_2019
                      (midnight 2020 6 30) 1460 365 "M" "monthly")
       = Ok (VList [], self')) /\
  (exists self1 self2,
     get_metrics (trc_dict (midnight 2015 7 2) july_1st_2019
                    (midnight 2020 6 30) 1460 365 "M" "monthly")
       = Ok (VDict ∅, self1) /\
     get_artifacts self1 = Ok (VList [], self2)) /\
  (exists self1 self2,
     get_artifacts (trc_dict (midnight 2015 7 2) july_1st_2019
                      (midnight 2020 6 30) 1460 365 "M" "monthly")
       = Ok (VList [], self1) /\
     get_metrics self1 = Ok (VDict ∅, self2)).
Proof.
  apply (untouched_bag_reads_empty
           (trc_dict (midnight 2015 7 2) july_1st_2019 (midnight 2020 6 30)
              1460 365 "M" "monthly")).
  - vm_compute. reflexivity.
  - vm_compute. reflexivity.
Defined.

(** A run of read-only calls succeeds and leaves both views as they were. *)
Lemma run_getters_views (cs : list mixin_call) (self : pyobj) :
  bag_wf self = true ->
  forallb is_getter cs = true ->
  exists self',
    run_calls cs self = Ok (tt, self') /\
    bag_wf self' = true /\
    metrics_of self' = metrics_of self /\
    artifacts_of self' = artifacts_of self.
Proof.
  revert self. induction cs as [| c cs IH]; intros self Hwf Hg.
  - by exists self.
  - cbn [forallb] in Hg. apply andb_true_iff in Hg as [Hc Hcs].
    cbn [run_calls]. unfold mbind at 1, method_bind at 1.
    destruct c; try discriminate; cbn [run_call]; unfold mbind, method_bind.
    + rewrite (get_metrics_spec _ Hwf). unfold mret, method_ret.
      destruct (IH (<["_metrics" := VDict (metrics_of self)]> self))
        as (s & E & W & M & A); [by apply bag_wf_set_metrics | done |].
      exists s. rewrite metrics_of_set_metrics in M.
      by rewrite artifacts_of_set_metrics in A.
    + rewrite (get_artifacts_spec _ Hwf). unfold mret, method_ret.
      destruct (IH (<["_artifacts" := VList (artifacts_of self)]> self))
        as (s & E & W & M & A); [by apply bag_wf_set_artifacts | done |].
      exists s. rewrite artifacts_of_set_artifacts in A.
      by rewrite metrics_of_set_artifacts in M.
Qed.

(** C9: on every attribute bag, a [get_metrics()] (respectively
    [get_artifacts()]) made after any run of further get calls returns what
    the first one returned; and after a log call, however many get calls
    follow, the getter still returns the contents with the logged entry,
    never a re-initialised empty container. *)
Theorem reads_without_writes_agree (self : pyobj) (cs : list mixin_call) :
  bag_wf self = true ->
  forallb is_getter cs = true ->
  (exists v s1 s2 s3,
     get_metrics self = Ok (v, s1) /\
     run_calls cs s1 = Ok (tt, s2) /\
     get_metrics s2 = Ok (v, s3)) /\
  (exists v s1 s2 s3,
     get_artifacts self = Ok (v, s1) /\
     run_calls cs s1 = Ok (tt, s2) /\
     get_artifacts s2 = Ok (v, s3)) /\
  (forall d : gmap string Z, exists s1 s2 s3,
     log_metrics d self = Ok (tt, s1) /\
     run_calls cs s1 = Ok (tt, s2) /\
     get_metrics s2 = Ok (VDict (d ∪ metrics_of self), s3)) /\
  (forall path, exists s1 s2 s3,
     log_artifact path self = Ok (tt, s1) /\
     run_calls cs s1 = Ok (tt, s2) /\
     get_artifacts s2 = Ok (VList (artifacts_of self ++ [path]), s3)).
Proof.
  intros Hwf Hg. repeat split.
  - destruct (run_getters_views cs (<["_metrics" := VDict (metrics_of self)]> self))
      as (s2 & E & W & M & _); [by apply bag_wf_set_metrics | done |].
    eexists _, _, s2, _. split; [by apply get_metrics_spec |].
    split; [exact E |].
    rewrite (get_metrics_spec _ W), M, metrics_of_set_metrics. reflexivity.
  - destruct (run_getters_views cs
                (<["_artifacts" := VList (artifacts_of self)]> self))
      as (s2 & E & W & _ & A); [by apply bag_wf_set_artifacts | done |].
    eexists _, _, s2, _. split; [by apply get_artifacts_spec |].
    split; [exact E |].
    rewrite (get_artifacts_spec _ W), A, artifacts_of_set_artifacts. reflexivity.
  - intros d.
    destruct (run_getters_views cs
                (<["_metrics" := VDict (d ∪ metrics_of self)]> self))
      as (s2 & E & W & M & _); [by apply bag_wf_set_metrics | done |].
    eexists _, s2, _. split; [by apply log_metrics_spec |].
    split; [exact E |].
    rewrite (get_metrics_spec _ W), M, metrics_of_set_metrics. reflexivity.
  - intros path.
    destruct (run_getters_views cs
                (<["_artifacts" := VList (artifacts_of self ++ [path])]> self))
      as (s2 & E & W & _ & A); [by apply bag_wf_set_artifacts | done |].
    eexists _, s2, _. split; [by apply log_artifact_spec |].
    split; [exact E |].
    rewrite (get_artifacts_spec _ W), A, artifacts_of_set_artifacts. reflexivity.
Qed.

Lemma reads_without_writes_agree_witness :
  (exists v s1 s2 s3,
     get_metrics logged_bag = Ok (v, s1) /\
     run_calls [GetArtifacts; GetMetrics; GetMetrics] s1 = Ok (tt, s2) /\
     get_metrics s2 = Ok (v, s3)) /\
  (exists v s1 s2 s3,
     get_artifacts logged_bag = Ok (v, s1) /\
     run_calls [GetArtifacts; GetMetrics; GetMetrics] s1 = Ok (tt, s2) /\
     get_artifacts s2 = Ok (v, s3)) /\
  (forall d : gmap string Z, exists s1 s2 s3,
     log_metrics d logged_bag = Ok (tt, s1) /\
     run_calls [GetArtifacts; GetMetrics; GetMetrics] s1 = Ok (tt, s2) /\
     get_metrics s2 = Ok (VDict (d ∪ metrics_of logged_bag), s3)) /\
  (forall path, exists s1 s2 s3,
     log_artifact path logged_bag = Ok (tt, s1) /\
     run_calls [GetArtifacts; GetMetrics; GetMetrics] s1 = Ok (tt, s2) /\
     get_artifacts s2 = Ok (VList (artifacts_of logged_bag ++ [path]), s3)).
Proof.
  apply (reads_without_writes_agree logged_bag
           [GetArtifacts; GetMetrics; GetMetrics]).
  - vm_compute. reflexivity.
  - reflexivity.
Defined.

(** C10: on every successfully constructed instance, any sequence of mixin
    calls ([log_metric], [log_metrics], [log_artifact], [get_metrics],
    [get_artifacts]) runs without raising and leaves what [start_date],
    [end_date], [future_date], [forecast_train_window],
    [forecast_future_window], [time_granularity] and
    [time_granularity_name] return exactly as it was after construction. *)
Theorem logging_leaves_date_window_fields derive e tw fw g h self
    (cs : list mixin_call) :
  TimeRangeConfiguration derive e tw fw g h = Ok self ->
  exists self' sd ed fd name,
    run_calls cs self = Ok (tt, self') /\
    date_window_fields self =
      [Ok (VDate sd); Ok (VDate ed); Ok (VDate fd); Ok (VInt tw); Ok (VInt fw);
       Ok (VStr g); Ok (VStr name)] /\
    date_window_fields self' = date_window_fields self.
Proof.
  intros HOk.
  destruct (derive e tw fw) as [[sd ed] fd] eqn:Hd.
  destruct (TimeRangeConfiguration_Ok_inv _ _ _ _ _ _ _ _ _ _ Hd HOk)
    as (_ & _ & _ & name & _ & ->).
  destruct (run_calls_frame cs _ (trc_dict_bag_wf sd (with_hour ed h) fd tw fw g name))
    as (self' & E & _ & F).
  exists self', sd, (with_hour ed h), fd, name.
  split; [exact E |]. split.
  - unfold date_window_fields, start_date, end_date, future_date,
      forecast_train_window, forecast_future_window, time_granularity,
      time_granularity_name, property.
    by rewrite trc_dict_start_date, trc_dict_end_date, trc_dict_future_date,
      trc_dict_forecast_train_window, trc_dict_forecast_future_window,
      trc_dict_time_granularity, trc_dict_time_granularity_name.
  - unfold date_window_fields, start_date, end_date, future_date,
      forecast_train_window, forecast_future_window, time_granularity,
      time_granularity_name, property.
    by rewrite !F.
Qed.

Lemma logging_leaves_date_window_fields_witness :
  exists self' sd ed fd name,
    run_calls [LogMetric "a" 1; LogArtifact "x"; GetMetrics;
               LogMetrics {["a" := 2; "b" := 3]}; GetArtifacts]
      (trc_dict (midnight 2015 7 2) july_1st_2019 (midnight 2020 6 30)
         1460 365 "M" "monthly") = Ok (tt, self') /\
    date_window_fields
      (trc_dict (midnight 2015 7 2) july_1st_2019 (midnight 2020 6 30)
         1460 365 "M" "monthly") =
      [Ok (VDate sd); Ok (VDate ed); Ok (VDate fd); Ok (VInt 1460);
       Ok (VInt 365); Ok (VStr "M"); Ok (VStr name)] /\
    date_window_fields self' =
      date_window_fields
        (trc_dict (midnight 2015 7 2) july_1st_2019 (midnight 2020 6 30)
           1460 365 "M" "monthly").
Proof.
  apply (logging_leaves_date_window_fields spec_create_forecaster_dates
           july_1st_2019 1460 365 "M" 0).
  vm_compute. reflexivity.
Defined.

(** The example of the module docstring: anchor 2019-07-01, windows 365*4
    and 365, granularity ['M'] gives 2015-07-02, 2019-07-01, 2020-06-30 and
    a monthly configuration. *)
Example docstring_example :
  TimeRangeConfiguration spec_create_forecaster_dates july_1st_2019
    (365 * 4) 365 "M" 0 =
    Ok (trc_dict (midnight 2015 7 2) (midnight 2019 7 1) (midnight 2020 6 30)
          (365 * 4) 365 "M" "monthly") /\
  is_monthly (trc_dict (midnight 2015 7 2) (midnight 2019 7 1)
                (midnight 2020 6 30) (365 * 4) 365 "M" "monthly") = Ok true.
Proof. split; vm_compute; reflexivity. Qed.

(** * Further properties of the module *)

(** ** Construction *)

Lemma hour_in_range_true (h : Z) :
  0 <= h <= 23 -> (0 <=? h) && (h <=? 23) = true.
Proof. intros H. apply andb_true_iff; split; apply Z.leb_le; lia. Qed.

Lemma hour_in_range_false (h : Z) :
  ~ 0 <= h <= 23 -> (0 <=? h) && (h <=? 23) = false.
Proof.
  intros H. apply andb_false_iff.
  destruct (Z.leb_spec 0 h); [| by left].
  destruct (Z.leb_spec h 23); [lia | by right].
Qed.

Lemma with_hour_same (d : datetime) : with_hour d (hour d) = d.
Proof. by destruct d. Qed.

Lemma dt_le_with_hour_mono (d : datetime) (h1 h2 : Z) :
  h1 <= h2 -> dt_le (with_hour d h1) (with_hour d h2) = true.
Proof. intros H. dt_order. Qed.

Lemma dict_getitem_Ok_pair d k v :
  dict_getitem d k = Ok v -> (k, v) ∈ d.
Proof.
  induction d as [| [k' v'] d IH]; cbn; [done |].
  case_bool_decide; subst.
  - intros [= ->]. apply list_elem_of_here.
  - intros Hd. apply list_elem_of_further. auto.
Qed.

(** X1: construction returns an instance exactly when [end_hour] is within
    0..23, the code is one of the table's keys, and the derived dates are
    ordered once the hour of the end date has been overwritten. *)
Theorem construction_succeeds_iff derive e tw fw g h sd ed fd :
  derive e tw fw = (sd, ed, fd) ->
  (exists self, TimeRangeConfiguration derive e tw fw g h = Ok self) <->
  (0 <= h <= 23 /\ g ∈ TIME_GRANULARITIES /\
   dt_le sd (with_hour ed h) = true /\ dt_le (with_hour ed h) fd = true).
Proof.
  intros Hd. split.
  - intros [self HOk].
    destruct (TimeRangeConfiguration_Ok_inv _ _ _ _ _ _ _ _ _ _ Hd HOk)
      as (Hh & H1 & H2 & name & Eg & _).
    repeat split; try lia; try done. by apply dict_getitem_Ok in Eg.
  - intros (Hh & Hg & H1 & H2).
    destruct (TimeRangeConfiguration_Ok_intro _ _ _ _ _ _ _ _ _ Hd Hh Hg H1 H2)
      as (name & _ & E).
    by eexists.
Qed.

Lemma construction_succeeds_iff_witness :
  (exists self,
     TimeRangeConfiguration spec_create_forecaster_dates july_1st_2019_morning
       1460 365 "W" 6 = Ok self) <->
  (0 <= 6 <= 23 /\ "W" ∈ TIME_GRANULARITIES /\
   dt_le (mk_datetime 2015 7 2 10 30 15 500)
     (with_hour july_1st_2019_morning 6) = true /\
   dt_le (with_hour july_1st_2019_morning 6)
     (mk_datetime 2020 6 30 10 30 15 500) = true).
Proof.
  apply (construction_succeeds_iff spec_create_forecaster_dates
           july_1st_2019_morning 1460 365 "W" 6).
  vm_compute. reflexivity.
Defined.

(** X2: a construction that fails ends in one of exactly four errors: the
    [ValueError] of [replace] for the hour, the [KeyError] of the name
    table carrying the code, or one of the two 'Bad dates passed' errors
    carrying the compared dates.  It never ends in the 'Bad time
    granularity' error, nor in an [AttributeError] or [TypeError]. *)
Theorem construction_fails_with_one_of_four derive e tw fw g h x sd ed fd :
  derive e tw fw = (sd, ed, fd) ->
  TimeRangeConfiguration derive e tw fw g h = Raise x ->
  x = ValueError [Lit "hour must be in 0..23"] \/
  x = KeyError g \/
  x = ValueError [Lit "Bad dates passed. Start:"; Interp (VDate sd);
                  Lit ", end:"; Interp (VDate (with_hour ed h)); Lit "."] \/
  x = ValueError [Lit "Bad dates passed. End:";
                  Interp (VDate (with_hour ed h));
                  Lit ", future:"; Interp (VDate fd); Lit "."].
Proof.
  intros Hd. rewrite TimeRangeConfiguration_unfold, __init___steps, Hd.
  unfold replace_hour.
  destruct ((0 <=? h) && (h <=? 23)); [| intros [= <-]; by left].
  destruct (dict_getitem TIME_GRANULARITY_NAME_MAP g) as [name | y] eqn:Eg.
  - rewrite _validate_construction_trc_dict.
    destruct (dt_le sd (with_hour ed h)); cbn [negb];
      [| intros [= <-]; right; right; by left].
    destruct (dt_le (with_hour ed h) fd); cbn [negb];
      [| intros [= <-]; right; right; by right].
    apply dict_getitem_Ok, py_in_str in Eg.
    unfold TIME_GRANULARITIES. rewrite Eg. discriminate.
  - intros [= <-]. right; left.
    destruct (decide (g ∈ TIME_GRANULARITY_NAME_MAP.*1)) as [Hin | Hout].
    + destruct (dict_getitem_present _ _ Hin) as [v Ev]. congruence.
    + rewrite (dict_getitem_missing _ _ Hout) in Eg. by injection Eg as <-.
Qed.

Lemma construction_fails_with_one_of_four_witness :
  KeyError "Y" = ValueError [Lit "hour must be in 0..23"] \/
  KeyError "Y" = KeyError "Y" \/
  KeyError "Y" =
    ValueError [Lit "Bad dates passed. Start:";
                Interp (VDate (midnight 2015 7 2));
                Lit ", end:"; Interp (VDate (with_hour july_1st_2019 0));
                Lit "."] \/
  KeyError "Y" =
    ValueError [Lit "Bad dates passed. End:";
                Interp (VDate (with_hour july_1st_2019 0));
                Lit ", future:"; Interp (VDate (midnight 2020 6 30)); Lit "."].
Proof.
  apply (construction_fails_with_one_of_four spec_create_forecaster_dates
           july_1st_2019 1460 365 "Y" 0).
  - vm_compute. reflexivity.
  - vm_compute. reflexivity.
Defined.

(** X3: with [end_hour] within 0..23, a code that is not a key of the name
    table ends construction in [KeyError] carrying that code, for every
    deriver, anchor and pair of windows, also when the derived dates are
    out of order. *)
Theorem unknown_code_raises_KeyError derive e tw fw g h :
  0 <= h <= 23 ->
  g ∉ TIME_GRANULARITIES ->
  TimeRangeConfiguration derive e tw fw g h = Raise (KeyError g).
Proof.
  intros Hh Hg.
  rewrite TimeRangeConfiguration_unfold, __init___steps.
  destruct (derive e tw fw) as [[sd ed] fd]. unfold replace_hour.
  rewrite (hour_in_range_true _ Hh).
  by rewrite (dict_getitem_missing _ _ Hg).
Qed.

Lemma unknown_code_raises_KeyError_witness :
  TimeRangeConfiguration spec_create_forecaster_dates july_1st_2019_morning
    0 (-3) "hourly" 23 = Raise (KeyError "hourly").
Proof.
  apply (unknown_code_raises_KeyError spec_create_forecaster_dates
           july_1st_2019_morning 0 (-3) "hourly" 23);
    [lia | not_in_granularities].
Defined.

(** X4: an [end_hour] outside 0..23 ends construction in the [ValueError]
    of [replace], whatever the code, the deriver, the anchor and the
    windows: the hour is overwritten before anything else is looked at. *)
Theorem end_hour_out_of_range_raises derive e tw fw g h :
  ~ 0 <= h <= 23 ->
  TimeRangeConfiguration derive e tw fw g h =
    Raise (ValueError [Lit "hour must be in 0..23"]).
Proof.
  intros Hh. rewrite TimeRangeConfiguration_unfold, __init___steps.
  destruct (derive e tw fw) as [[sd ed] fd]. unfold replace_hour.
  by rewrite (hour_in_range_false _ Hh).
Qed.

Lemma end_hour_out_of_range_raises_witness :
  TimeRangeConfiguration spec_create_forecaster_dates july_1st_2019 1460 365
    "X" 24 = Raise (ValueError [Lit "hour must be in 0..23"]).
Proof.
  apply (end_hour_out_of_range_raises spec_create_forecaster_dates
           july_1st_2019 1460 365 "X" 24).
  lia.
Defined.

(** X5: with a valid hour and a known code, dates that are out of order
    after the override end construction in a 'Bad dates passed'
    [ValueError] carrying the two dates compared: start and overridden end
    when the start is later than the end, otherwise overridden end and
    future. *)
Theorem unordered_dates_raise derive e tw fw g h sd ed fd :
  derive e tw fw = (sd, ed, fd) ->
  0 <= h <= 23 ->
  g ∈ TIME_GRANULARITIES ->
  dt_le sd (with_hour ed h) && dt_le (with_hour ed h) fd = false ->
  TimeRangeConfiguration derive e tw fw g h =
    Raise (ValueError
             (if dt_le sd (with_hour ed h)
              then [Lit "Bad dates passed. End:";
                    Interp (VDate (with_hour ed h));
                    Lit ", future:"; Interp (VDate fd); Lit "."]
              else [Lit "Bad dates passed. Start:"; Interp (VDate sd);
                    Lit ", end:"; Interp (VDate (with_hour ed h));
                    Lit "."])).
Proof.
  intros Hd Hh Hg Hbad.
  destruct (dict_getitem_present TIME_GRANULARITY_NAME_MAP g Hg) as [name Eg].
  rewrite TimeRangeConfiguration_unfold, __init___steps, Hd.
  unfold replace_hour.
  rewrite (hour_in_range_true _ Hh), Eg, _validate_construction_trc_dict.
  destruct (dt_le sd (with_hour ed h)); cbn [negb andb] in *; [| reflexivity].
  by rewrite Hbad.
Qed.

Lemma unordered_dates_raise_witness :
  TimeRangeConfiguration spec_create_forecaster_dates july_1st_2019 0 0 "H" 6 =
    Raise (ValueError
             (if dt_le july_1st_2019 (with_hour july_1st_2019 6)
              then [Lit "Bad dates passed. End:";
                    Interp (VDate (with_hour july_1st_2019 6));
                    Lit ", future:"; Interp (VDate july_1st_2019); Lit "."]
              else [Lit "Bad dates passed. Start:";
                    Interp (VDate july_1st_2019);
                    Lit ", end:"; Interp (VDate (with_hour july_1st_2019 6));
                    Lit "."])).
Proof.
  apply (unordered_dates_raise spec_create_forecaster_dates
           july_1st_2019 0 0 "H" 6).
  - vm_compute. reflexivity.
  - lia.
  - in_granularities.
  - vm_compute. reflexivity.
Defined.

(** X6: on every constructed instance [time_granularity_name] is the
    display name the class table gives to the code passed in: hourly for H,
    daily for D, weekly for W, monthly for M. *)
Theorem display_name_matches_code derive e tw fw g h self :
  TimeRangeConfiguration derive e tw fw g h = Ok self ->
  exists name,
    time_granularity_name self = Ok (VStr name) /\
    time_granularity self = Ok (VStr g) /\
    ((g = "H" /\ name = "hourly") \/ (g = "D" /\ name = "daily") \/
     (g = "W" /\ name = "weekly") \/ (g = "M" /\ name = "monthly")).
Proof.
  intros HOk.
  destruct (derive e tw fw) as [[sd ed] fd] eqn:Hd.
  destruct (TimeRangeConfiguration_Ok_inv _ _ _ _ _ _ _ _ _ _ Hd HOk)
    as (_ & _ & _ & name & Eg & ->).
  exists name. unfold time_granularity_name, time_granularity, property.
  rewrite trc_dict_time_granularity_name, trc_dict_time_granularity.
  do 2 (split; [reflexivity |]).
  apply dict_getitem_Ok_pair in Eg. unfold_granularities.
  rewrite !elem_of_cons, elem_of_nil in Eg.
  destruct Eg as [[= -> ->] | [[= -> ->] | [[= -> ->] | [[= -> ->] | []]]]];
    auto 10.
Qed.

Lemma display_name_matches_code_witness :
  exists name,
    time_granularity_name
      (trc_dict (midnight 2015 7 2) july_1st_2019 (midnight 2020 6 30)
         1460 365 "W" "weekly") = Ok (VStr name) /\
    time_granularity
      (trc_dict (midnight 2015 7 2) july_1st_2019 (midnight 2020 6 30)
         1460 365 "W" "weekly") = Ok (VStr "W") /\
    (("W" = "H" /\ name = "hourly") \/ ("W" = "D" /\ name = "daily") \/
     ("W" = "W" /\ name = "weekly") \/ ("W" = "M" /\ name = "monthly")).
Proof.
  apply (display_name_matches_code spec_create_forecaster_dates
           july_1st_2019 1460 365 "W" 0).
  vm_compute. reflexivity.
Defined.

(** X7: a constructed instance carries exactly the seven private
    attributes set by [__init__]; in particular construction creates
    neither [_artifacts] nor [_metrics], which appear only on first use. *)
Theorem constructed_instance_attributes derive e tw fw g h self :
  TimeRangeConfiguration derive e tw fw g h = Ok self ->
  dom self =
    list_to_set ["_start_date"; "_end_date"; "_future_date";
                 "_forecast_train_window"; "_forecast_future_window";
                 "_time_granularity"; "_time_granularity_name"] /\
  hasattr self "_artifacts" = false /\
  hasattr self "_metrics" = false.
Proof.
  intros HOk.
  destruct (derive e tw fw) as [[sd ed] fd] eqn:Hd.
  destruct (TimeRangeConfiguration_Ok_inv _ _ _ _ _ _ _ _ _ _ Hd HOk)
    as (_ & _ & _ & name & _ & ->).
  split; [| split].
  - unfold trc_dict. rewrite !dom_insert_L, dom_empty_L.
    cbn [list_to_set foldr]. set_solver.
  - unfold hasattr. rewrite trc_dict_no_artifacts.
    apply bool_decide_eq_false_2. by intros [? ?].
  - unfold hasattr. rewrite trc_dict_no_metrics.
    apply bool_decide_eq_false_2. by intros [? ?].
Qed.

Lemma constructed_instance_attributes_witness :
  dom (trc_dict (midnight 2015 7 2) july_1st_2019 (midnight 2020 6 30)
         1460 365 "M" "monthly") =
    list_to_set ["_start_date"; "_end_date"; "_future_date";
                 "_forecast_train_window"; "_forecast_future_window";
                 "_time_granularity"; "_time_granularity_name"] /\
  hasattr (trc_dict (midnight 2015 7 2) july_1st_2019 (midnight 2020 6 30)
             1460 365 "M" "monthly") "_artifacts" = false /\
  hasattr (trc_dict (midnight 2015 7 2) july_1st_2019 (midnight 2020 6 30)
             1460 365 "M" "monthly") "_metrics" = false.
Proof.
  apply (constructed_instance_attributes spec_create_forecaster_dates
           july_1st_2019 1460 365 "M" 0).
  vm_compute. reflexivity.
Defined.

(** X8: when [end_hour] is the hour the deriver already produced, a
    deriver that meets its contract on non-negative windows and a known
    code always give an instance, and its three dates are the derived ones
    unchanged. *)
Theorem keeping_the_derived_hour_constructs derive e tw fw g sd ed fd :
  deriver_contract derive ->
  0 <= tw -> 0 <= fw ->
  g ∈ TIME_GRANULARITIES ->
  derive e tw fw = (sd, ed, fd) ->
  0 <= hour ed <= 23 ->
  exists self,
    TimeRangeConfiguration derive e tw fw g (hour ed) = Ok self /\
    start_date self = Ok (VDate sd) /\
    end_date self = Ok (VDate ed) /\
    future_date self = Ok (VDate fd).
Proof.
  intros Hc Htw Hfw Hg Hd Hh.
  pose proof (Hc e tw fw Htw Hfw) as Hc'. rewrite Hd in Hc'.
  destruct Hc' as [H1 H2].
  destruct (TimeRangeConfiguration_Ok_intro derive e tw fw g (hour ed) sd ed fd)
    as (name & _ & E); auto; try by rewrite with_hour_same.
  rewrite with_hour_same in E. eexists. split; [exact E |].
  unfold start_date, end_date, future_date, property.
  by rewrite trc_dict_start_date, trc_dict_end_date, trc_dict_future_date.
Qed.

Lemma keeping_the_derived_hour_constructs_witness :
  exists self,
    TimeRangeConfiguration spec_create_forecaster_dates july_1st_2019_morning
      0 0 "D" (hour july_1st_2019_morning) = Ok self /\
    start_date self = Ok (VDate july_1st_2019_morning) /\
    end_date self = Ok (VDate july_1st_2019_morning) /\
    future_date self = Ok (VDate july_1st_2019_morning).
Proof.
  apply (keeping_the_derived_hour_constructs spec_create_forecaster_dates
           july_1st_2019_morning 0 0 "D").
  - exact spec_create_forecaster_dates_contract.
  - lia.
  - lia.
  - in_granularities.
  - reflexivity.
  - cbn. lia.
Defined.

(** X9: with a deriver that meets its contract, non-negative windows and a
    known code, an [end_hour] not below the derived hour can only fail the
    end-against-future check: construction succeeds exactly when the
    overridden end is not later than the future date. *)
Theorem later_end_hour_succeeds_iff derive e tw fw g h sd ed fd :
  deriver_contract derive ->
  0 <= tw -> 0 <= fw ->
  g ∈ TIME_GRANULARITIES ->
  derive e tw fw = (sd, ed, fd) ->
  0 <= h <= 23 ->
  hour ed <= h ->
  (exists self, TimeRangeConfiguration derive e tw fw g h = Ok self) <->
  dt_le (with_hour ed h) fd = true.
Proof.
  intros Hc Htw Hfw Hg Hd Hh Hle.
  pose proof (Hc e tw fw Htw Hfw) as Hc'. rewrite Hd in Hc'.
  destruct Hc' as [H1 _].
  split.
  - intros [self HOk].
    by destruct (TimeRangeConfiguration_Ok_inv _ _ _ _ _ _ _ _ _ _ Hd HOk)
      as (_ & _ & ? & _).
  - intros H2.
    assert (H0 : dt_le sd (with_hour ed h) = true).
    { eapply dt_le_trans; [exact H1 |].
      rewrite <- (with_hour_same ed) at 1. by apply dt_le_with_hour_mono. }
    destruct (TimeRangeConfiguration_Ok_intro _ _ _ _ _ _ _ _ _ Hd Hh Hg H0 H2)
      as (name & _ & E).
    by eexists.
Qed.

Lemma later_end_hour_succeeds_iff_witness :
  (exists self,
     TimeRangeConfiguration spec_create_forecaster_dates july_1st_2019_morning
       1460 0 "M" 18 = Ok self) <->
  dt_le (with_hour july_1st_2019_morning 18) july_1st_2019_morning = true.
Proof.
  apply (later_end_hour_succeeds_iff spec_create_forecaster_dates
           july_1st_2019_morning 1460 0 "M" 18
           (mk_datetime 2015 7 2 10 30 15 500)).
  - exact spec_create_forecaster_dates_contract.
  - lia.
  - lia.
  - in_granularities.
  - vm_compute. reflexivity.
  - lia.
  - cbn. lia.
Defined.

(** X10: with a deriver that meets its contract, non-negative windows and
    a known code, an [end_hour] not above the derived hour can only fail
    the start-against-end check: construction succeeds exactly when the
    start is not later than the overridden end. *)
Theorem earlier_end_hour_succeeds_iff derive e tw fw g h sd ed fd :
  deriver_contract derive ->
  0 <= tw -> 0 <= fw ->
  g ∈ TIME_GRANULARITIES ->
  derive e tw fw = (sd, ed, fd) ->
  0 <= h <= 23 ->
  h <= hour ed ->
  (exists self, TimeRangeConfiguration derive e tw fw g h = Ok self) <->
  dt_le sd (with_hour ed h) = true.
Proof.
  intros Hc Htw Hfw Hg Hd Hh Hle.
  pose proof (Hc e tw fw Htw Hfw) as Hc'. rewrite Hd in Hc'.
  destruct Hc' as [_ H2].
  split.
  - intros [self HOk].
    by destruct (TimeRangeConfiguration_Ok_inv _ _ _ _ _ _ _ _ _ _ Hd HOk)
      as (_ & ? & _).
  - intros H1.
    assert (H0 : dt_le (with_hour ed h) fd = true).
    { eapply dt_le_trans; [| exact H2].
      rewrite <- (with_hour_same ed) at 2. by apply dt_le_with_hour_mono. }
    destruct (TimeRangeConfiguration_Ok_intro _ _ _ _ _ _ _ _ _ Hd Hh Hg H1 H0)
      as (name & _ & E).
    by eexists.
Qed.

Lemma earlier_end_hour_succeeds_iff_witness :
  (exists self,
     TimeRangeConfiguration spec_create_forecaster_dates july_1st_2019_morning
       0 365 "M" 6 = Ok self) <->
  dt_le july_1st_2019_morning (with_hour july_1st_2019_morning 6) = true.
Proof.
  apply (earlier_end_hour_succeeds_iff spec_create_forecaster_dates
           july_1st_2019_morning 0 365 "M" 6 july_1st_2019_morning
           july_1st_2019_morning (mk_datetime 2020 6 30 10 30 15 500)).
  - exact spec_create_forecaster_dates_contract.
  - lia.
  - lia.
  - in_granularities.
  - vm_compute. reflexivity.
  - lia.
  - cbn. lia.
Defined.

(** ** The attribute bag on arbitrary objects *)

(** X11: for the two names the mixin passes to it, [_artifacts] and
    [_metrics], [_get_init] hands back the value it was given and never
    overwrites: afterwards the attribute holds what it held before when it
    existed, the given value otherwise, and every other attribute is as it
    was. *)
Theorem _get_init_never_overwrites (name : string) (val : pyval) (self : pyobj) :
  name = "_artifacts" \/ name = "_metrics" ->
  exists self',
    _get_init name val self = Ok (val, self') /\
    self' !! name = Some (default val (self !! name)) /\
    forall other, other <> name -> self' !! other = self !! other.
Proof.
  intros _. destruct (self !! name) as [v |] eqn:E.
  - exists self. rewrite (_get_init_present _ _ _ _ E). by rewrite E.
  - exists (<[name := val]> self). rewrite (_get_init_absent _ _ _ E).
    split; [reflexivity |]. split; [by rewrite lookup_insert_eq |].
    intros other Hne. by rewrite lookup_insert_ne.
Qed.

Lemma _get_init_never_overwrites_witness :
  exists self',
    _get_init "_metrics" (VDict ∅) logged_bag = Ok (VDict ∅, self') /\
    self' !! "_metrics" = Some (default (VDict ∅) (logged_bag !! "_metrics")) /\
    forall other, other <> "_metrics" -> self' !! other = logged_bag !! other.
Proof.
  apply (_get_init_never_overwrites "_metrics" (VDict ∅) logged_bag).
  right. reflexivity.
Defined.

(** X12: the two getters never raise, on any object at all: each returns
    what its attribute holds, or the empty container when the attribute is
    missing, and leaves the object with that attribute bound to the
    returned value and everything else untouched. *)
Theorem getters_never_raise (self : pyobj) :
  get_metrics self =
    Ok (default (VDict ∅) (self !! "_metrics"),
        <["_metrics" := default (VDict ∅) (self !! "_metrics")]> self) /\
  get_artifacts self =
    Ok (default (VList []) (self !! "_artifacts"),
        <["_artifacts" := default (VList []) (self !! "_artifacts")]> self).
Proof.
  split.
  - unfold get_metrics, _get_init_dict, mbind, method_bind.
    destruct (self !! "_metrics") as [v |] eqn:E.
    + rewrite (_get_init_present _ _ _ _ E). unfold getattr. rewrite E.
      cbn [default]. by rewrite insert_id.
    + rewrite (_get_init_absent _ _ _ E). unfold getattr.
      by rewrite lookup_insert_eq.
  - unfold get_artifacts, _get_init_list, mbind, method_bind.
    destruct (self !! "_artifacts") as [v |] eqn:E.
    + rewrite (_get_init_present _ _ _ _ E). unfold getattr. rewrite E.
      cbn [default]. by rewrite insert_id.
    + rewrite (_get_init_absent _ _ _ E). unfold getattr.
      by rewrite lookup_insert_eq.
Qed.

(** X13: [log_artifact] does not repair an attribute of the wrong kind:
    when [_artifacts] is already bound to a datetime, an int, a str or a
    dict, it raises [AttributeError] for [append], whatever the path. *)
Theorem log_artifact_on_clashing_attribute (self : pyobj) (v : pyval)
    (path : string) :
  self !! "_artifacts" = Some v ->
  lacks_append v = true ->
  log_artifact path self = Raise (AttributeError "append").
Proof.
  intros E Hv. unfold log_artifact, _get_init_list, mbind, method_bind.
  rewrite (_get_init_present _ _ _ _ E). unfold attr_append. rewrite E.
  by destruct v.
Qed.

Lemma log_artifact_on_clashing_attribute_witness :
  log_artifact "x" clashing_object = Raise (AttributeError "append").
Proof.
  apply (log_artifact_on_clashing_attribute clashing_object (VStr "a") "x").
  - vm_compute. reflexivity.
  - reflexivity.
Defined.

(** X14: [log_metrics] and [log_metric] do not repair an attribute of the
    wrong kind: when [_metrics] is already bound to a datetime, an int, a
    str or a list, both raise [AttributeError] for [update]. *)
Theorem log_metrics_on_clashing_attribute (self : pyobj) (v : pyval)
    (d : gmap string Z) (k : string) (x : Z) :
  self !! "_metrics" = Some v ->
  lacks_update v = true ->
  log_metrics d self = Raise (AttributeError "update") /\
  log_metric k x self = Raise (AttributeError "update").
Proof.
  intros E Hv.
  assert (G : forall d', log_metrics d' self = Raise (AttributeError "update")).
  { intros d'. unfold log_metrics, _get_init_dict, mbind, method_bind.
    rewrite (_get_init_present _ _ _ _ E). unfold attr_update. rewrite E.
    by destruct v. }
  split; [apply G |]. unfold log_metric. apply G.
Qed.

Lemma log_metrics_on_clashing_attribute_witness :
  log_metrics {["a" := 1]} clashing_object = Raise (AttributeError "update") /\
  log_metric "a" 2 clashing_object = Raise (AttributeError "update").
Proof.
  apply (log_metrics_on_clashing_attribute clashing_object (VList ["m"])
           {["a" := 1]} "a" 2).
  - vm_compute. reflexivity.
  - reflexivity.
Defined.

(** ** Sequences of mixin calls *)

(** What a sequence of calls does to the two views of the bag. *)
Lemma run_calls_views (cs : list mixin_call) (self : pyobj) :
  bag_wf self = true ->
  exists self',
    run_calls cs self = Ok (tt, self') /\
    bag_wf self' = true /\
    artifacts_of self' = (artifacts_of self ++ logged_paths cs)%list /\
    metrics_of self' = logged_metrics cs (metrics_of self).
Proof.
  revert self. induction cs as [| c cs IH]; intros self Hwf.
  - exists self. by rewrite app_nil_r.
  - cbn [run_calls]. unfold mbind at 1, method_bind at 1.
    destruct c as [k v | d | p | |]; cbn [run_call logged_paths logged_metrics].
    + unfold log_metric. rewrite (log_metrics_spec _ _ Hwf).
      destruct (IH (<["_metrics" := VDict ({[k := v]} ∪ metrics_of self)]> self))
        as (s & E & W & A & M); [by apply bag_wf_set_metrics |].
      exists s. rewrite artifacts_of_set_metrics in A.
      rewrite metrics_of_set_metrics, <- insert_union_singleton_l in M. done.
    + rewrite (log_metrics_spec _ _ Hwf).
      destruct (IH (<["_metrics" := VDict (d ∪ metrics_of self)]> self))
        as (s & E & W & A & M); [by apply bag_wf_set_metrics |].
      exists s. rewrite artifacts_of_set_metrics in A.
      by rewrite metrics_of_set_metrics in M.
    + rewrite (log_artifact_spec _ _ Hwf).
      destruct (IH (<["_artifacts" := VList (artifacts_of self ++ [p])]> self))
        as (s & E & W & A & M); [by apply bag_wf_set_artifacts |].
      exists s. rewrite metrics_of_set_artifacts in M.
      rewrite artifacts_of_set_artifacts, <- app_assoc in A. done.
    + unfold mbind, method_bind. rewrite (get_metrics_spec _ Hwf).
      unfold mret, method_ret.
      destruct (IH (<["_metrics" := VDict (metrics_of self)]> self))
        as (s & E & W & A & M); [by apply bag_wf_set_metrics |].
      exists s. rewrite artifacts_of_set_metrics in A.
      by rewrite metrics_of_set_metrics in M.
    + unfold mbind, method_bind. rewrite (get_artifacts_spec _ Hwf).
      unfold mret, method_ret.
      destruct (IH (<["_artifacts" := VList (artifacts_of self)]> self))
        as (s & E & W & A & M); [by apply bag_wf_set_artifacts |].
      exists s. rewrite metrics_of_set_artifacts in M.
      by rewrite artifacts_of_set_artifacts in A.
Qed.

(** X15: on a bag whose two attributes, when present, hold a list and a
    dict, any sequence of mixin calls runs without raising and keeps that
    shape; afterwards the artifacts are the earlier ones followed by the
    logged paths in call order, the metrics are the earlier ones updated
    by each logging call in turn, and every other attribute is as it was.
    Getter calls change neither view. *)
Theorem mixin_calls_effect (cs : list mixin_call) (self : pyobj) :
  bag_wf self = true ->
  exists self',
    run_calls cs self = Ok (tt, self') /\
    bag_wf self' = true /\
    artifacts_of self' = (artifacts_of self ++ logged_paths cs)%list /\
    metrics_of self' = logged_metrics cs (metrics_of self) /\
    forall name, name <> "_metrics" -> name <> "_artifacts" ->
      self' !! name = self !! name.
Proof.
  intros Hwf.
  destruct (run_calls_views cs self Hwf) as (s1 & E1 & W & A & M).
  destruct (run_calls_frame cs self Hwf) as (s2 & E2 & _ & F).
  assert (s2 = s1) as -> by congruence.
  exists s1. by repeat split.
Qed.

Lemma mixin_calls_effect_witness :
  exists self',
    run_calls [LogArtifact "x"; GetMetrics; LogMetric "b" 1;
               LogMetrics {["c" := 2]}; LogArtifact "x"; GetArtifacts]
      logged_bag = Ok (tt, self') /\
    bag_wf self' = true /\
    artifacts_of self' =
      (artifacts_of logged_bag ++
       logged_paths [LogArtifact "x"; GetMetrics; LogMetric "b" 1;
                     LogMetrics {["c" := 2]}; LogArtifact "x"; GetArtifacts])%list /\
    metrics_of self' =
      logged_metrics [LogArtifact "x"; GetMetrics; LogMetric "b" 1;
                      LogMetrics {["c" := 2]}; LogArtifact "x"; GetArtifacts]
        (metrics_of logged_bag) /\
    forall name, name <> "_metrics" -> name <> "_artifacts" ->
      self' !! name = logged_bag !! name.
Proof.
  apply (mixin_calls_effect
           [LogArtifact "x"; GetMetrics; LogMetric "b" 1;
            LogMetrics {["c" := 2]}; LogArtifact "x"; GetArtifacts]
           logged_bag).
  vm_compute. reflexivity.
Defined.

(** X16: two [log_metrics] calls in a row leave the object exactly as one
    call with the second mapping laid over the first. *)
Theorem log_metrics_twice_is_one_update (d1 d2 : gmap string Z) (self : pyobj) :
  bag_wf self = true ->
  (log_metrics d1;; log_metrics d2) self = log_metrics (d2 ∪ d1) self.
Proof.
  intros Hwf. unfold mbind, method_bind.
  rewrite (log_metrics_spec d1 _ Hwf), (log_metrics_spec (d2 ∪ d1) _ Hwf).
  rewrite log_metrics_spec by by apply bag_wf_set_metrics.
  rewrite metrics_of_set_metrics, insert_insert_eq.
  by rewrite (assoc_L (∪)).
Qed.

Lemma log_metrics_twice_is_one_update_witness :
  (log_metrics {["a" := 1; "b" := 2]};; log_metrics {["a" := 3]}) logged_bag =
    log_metrics ({["a" := 3]} ∪ {["a" := 1; "b" := 2]}) logged_bag.
Proof.
  apply (log_metrics_twice_is_one_update {["a" := 1; "b" := 2]} {["a" := 3]}
           logged_bag).
  vm_compute. reflexivity.
Defined.

(** X17: logging a metric mapping and logging an artifact commute: both
    orders succeed and leave the same object. *)
Theorem log_metrics_log_artifact_commute (d : gmap string Z) (path : string)
    (self : pyobj) :
  bag_wf self = true ->
  (log_metrics d;; log_artifact path) self =
    (log_artifact path;; log_metrics d) self /\
  exists self', (log_metrics d;; log_artifact path) self = Ok (tt, self').
Proof.
  intros Hwf. unfold mbind, method_bind.
  rewrite (log_metrics_spec d _ Hwf), (log_artifact_spec path _ Hwf).
  rewrite log_artifact_spec by by apply bag_wf_set_metrics.
  rewrite log_metrics_spec by by apply bag_wf_set_artifacts.
  rewrite artifacts_of_set_metrics, metrics_of_set_artifacts.
  split; [| by eexists].
  do 2 f_equal. by apply insert_insert_ne.
Qed.

Lemma log_metrics_log_artifact_commute_witness :
  (log_metrics {["a" := 1]};; log_artifact "x") logged_bag =
    (log_artifact "x";; log_metrics {["a" := 1]}) logged_bag /\
  exists self',
    (log_metrics {["a" := 1]};; log_artifact "x") logged_bag = Ok (tt, self').
Proof.
  apply (log_metrics_log_artifact_commute {["a" := 1]} "x" logged_bag).
  vm_compute. reflexivity.
Defined.

(** X18: a constructed instance starts with an empty bag: after any
    sequence of mixin calls on it, [get_artifacts()] returns exactly the
    paths those calls logged, in call order, and [get_metrics()] exactly
    the metrics they logged, later values over earlier ones. *)
Theorem constructed_instance_accumulates derive e tw fw g h self
    (cs : list mixin_call) :
  TimeRangeConfiguration derive e tw fw g h = Ok self ->
  exists s1 s2 s3,
    run_calls cs self = Ok (tt, s1) /\
    get_artifacts s1 = Ok (VList (logged_paths cs), s2) /\
    get_metrics s2 = Ok (VDict (logged_metrics cs ∅), s3).
Proof.
  intros HOk.
  destruct (derive e tw fw) as [[sd ed] fd] eqn:Hd.
  destruct (TimeRangeConfiguration_Ok_inv _ _ _ _ _ _ _ _ _ _ Hd HOk)
    as (_ & _ & _ & name & _ & ->).
  destruct (run_calls_views cs _
              (trc_dict_bag_wf sd (with_hour ed h) fd tw fw g name))
    as (s1 & E & W & A & M).
  unfold artifacts_of in A at 2. rewrite trc_dict_no_artifacts in A.
  unfold metrics_of in M at 2. rewrite trc_dict_no_metrics in M.
  cbn [app] in A.
  eexists s1, _, _. split; [exact E |].
  rewrite (get_artifacts_spec _ W), A. split; [reflexivity |].
  rewrite get_metrics_spec by by apply bag_wf_set_artifacts.
  by rewrite metrics_of_set_artifacts, M.
Qed.

Lemma constructed_instance_accumulates_witness :
  exists s1 s2 s3,
    run_calls [LogMetric "a" 1; LogArtifact "x"; GetMetrics;
               LogMetric "a" 2; LogArtifact "y"]
      (trc_dict (midnight 2015 7 2) july_1st_2019 (midnight 2020 6 30)
         1460 365 "M" "monthly") = Ok (tt, s1) /\
    get_artifacts s1 =
      Ok (VList (logged_paths [LogMetric "a" 1; LogArtifact "x"; GetMetrics;
                               LogMetric "a" 2; LogArtifact "y"]), s2) /\
    get_metrics s2 =
      Ok (VDict (logged_metrics [LogMetric "a" 1; LogArtifact "x"; GetMetrics;
                                 LogMetric "a" 2; LogArtifact "y"] ∅), s3).
Proof.
  apply (constructed_instance_accumulates spec_create_forecaster_dates
           july_1st_2019 1460 365 "M" 0).
  vm_compute. reflexivity.
Defined.
